(** * Host lookup order (package net, conf.go) and errors.Join

    A shallow embedding of the method [hostLookupOrder] of [conf], [initConfVal],
    [isLocalhost], [isGateway], [isOutbound] (src/net/conf.go) and of
    [errors.Join] with [joinError] (errors/join.go), together with the
    properties of the decision engine stated in the specification. *)

From Stdlib Require Import ZArith Ascii String List Bool Lia.
From stdpp Require Import base option list strings gmap.

Local Open Scope string_scope.
Local Open Scope Z_scope.

(** ** Byte strings

    Go strings are byte sequences; [string] is a list of 8-bit [ascii]. *)

Module Str.

(** [len(s)] *)
Definition len (s : string) : Z := Z.of_nat (String.length s).

(** [s[i:]] for [0 <= i <= len(s)]. *)
Definition from (i : Z) (s : string) : string :=
  String.substring (Z.to_nat i) (String.length s - Z.to_nat i)%nat s.

(** [s[:j]] for [0 <= j <= len(s)]. *)
Definition upto (j : Z) (s : string) : string :=
  String.substring 0 (Z.to_nat j) s.

(** Modelled from the spec: [bytealg.IndexByteString] is not part of the
    sources at hand; the engine asks whether the hostname "contains a
    backslash or a %".  It is the index of the first occurrence of the
    byte, or -1 when there is none. *)
Fixpoint IndexByteString (s : string) (c : ascii) : Z :=
  match s with
  | EmptyString => -1
  | String b s' =>
      if Ascii.eqb b c then 0
      else let i := IndexByteString s' c in
           if i =? -1 then -1 else i + 1
  end.

(** Modelled from the spec: [lowerASCII] (net/parse.go) is not part of the
    sources at hand; comparisons are "case-insensitive" over ASCII. *)
Definition lowerASCII (b : ascii) : ascii :=
  let n := Z.of_N (N_of_ascii b) in
  if (65 <=? n) && (n <=? 90) then ascii_of_N (Z.to_N (n + 32)) else b.

(** The byte loop of [stringsEqualFold], run once the lengths agree. *)
Fixpoint equalFoldBytes (s t : string) : bool :=
  match s, t with
  | EmptyString, EmptyString => true
  | String a s', String b t' =>
      if Ascii.eqb (lowerASCII a) (lowerASCII b) then equalFoldBytes s' t'
      else false
  | _, _ => false
  end.

(** Modelled from the spec: [stringsEqualFold] (net/parse.go) is not part
    of the sources at hand: "equals (case-insensitive)". *)
Definition stringsEqualFold (s t : string) : bool :=
  if negb (len s =? len t) then false else equalFoldBytes s t.

(** Modelled from the spec: [stringsHasSuffix] (net/parse.go) is not part
    of the sources at hand: "ends in". *)
Definition stringsHasSuffix (s suffix : string) : bool :=
  (len suffix <=? len s) && String.eqb (from (len s - len suffix) s) suffix.

(** Modelled from the spec: [stringsHasSuffixFold] (net/parse.go) is not
    part of the sources at hand: "ends in (case-insensitive)". *)
Definition stringsHasSuffixFold (s suffix : string) : bool :=
  (len suffix <=? len s) && stringsEqualFold (from (len s - len suffix) s) suffix.

(** Modelled from the spec: [stringsHasPrefix] (net/parse.go) is not part
    of the sources at hand: "any source name starting with". *)
Definition stringsHasPrefix (s prefix : string) : bool :=
  (len prefix <=? len s) && String.eqb (upto (len prefix) s) prefix.

End Str.

(** ** Errors as the engine classifies them *)

(** Modelled from the spec: the [error] values met by the engine are told
    apart only by "absence-of-file / permission / other-error". *)
Inductive oserror : Type :=
| ErrNotExist
| ErrPermission
| ErrOther (msg : string).

(** A Go [error] is an interface value and may be [nil]. *)
Abbreviation error := (option oserror).

(** [os.IsNotExist] *)
Definition IsNotExist (err : error) : bool :=
  match err with Some ErrNotExist => true | _ => false end.

(** [os.IsPermission] *)
Definition IsPermission (err : error) : bool :=
  match err with Some ErrPermission => true | _ => false end.

(** [err != nil] *)
Definition notNil (err : error) : bool :=
  match err with Some _ => true | None => false end.

(** ** Data model *)

(** [hostLookupOrder], the outcome enumeration (declared with iota in
    dnsclient_unix.go, in this order). *)
Inductive hostLookupOrder : Type :=
| hostLookupCgo
| hostLookupFilesDNS
| hostLookupDNSFiles
| hostLookupFiles
| hostLookupDNS.

(** The fields of [dnsConfig] which the engine reads. *)
Record dnsConfig : Type := mkDnsConfig {
  lookup : list string;
  unknownOpt : bool;
  err : error
}.

(** Modelled from the spec: [nssSource] is declared outside the sources at
    hand; a source has a name and "hasStandardCriteria: bool", the value of
    its method [standardCriteria]. *)
Record nssSource : Type := mkNssSource {
  source : string;
  standardCriteria : bool
}.

(** Modelled from the spec: [nssConf] is declared outside the sources at
    hand: a "mapping from database name to ordered sequence of NSSSource"
    and an error classification. *)
Record nssConf : Type := mkNssConf {
  nss_err : error;
  sources : gmap string (list nssSource)
}.

(** [nss.sources["hosts"]]: a missing key reads as the nil slice. *)
Definition hostsSources (nss : nssConf) : list nssSource :=
  default [] (sources nss !! "hosts").

(** [conf]; [resolv] is a pointer and may be nil. *)
Record conf : Type := mkConf {
  forceCgoLookupHost : bool;
  netGo : bool;
  netCgo : bool;
  hasMDNSAllow : bool;
  goos : string;
  dnsDebugLevel : Z;
  resolv : option dnsConfig
}.

(** [Resolver]: only [PreferGo] matters here. *)
Record Resolver : Type := mkResolver { PreferGo : bool }.

(** The method [preferGo] of [Resolver]: [r != nil && r.PreferGo]. *)
Definition preferGo (r : option Resolver) : bool :=
  match r with
  | Some r' => PreferGo r'
  | None => false
  end.

(** The package-level collaborators read on each call: the cached NSS
    configuration ([getSystemNSS]) and the machine host name
    ([getHostname], a name and an error). *)
Record system : Type := mkSystem {
  getSystemNSS : nssConf;
  getHostname : string * error
}.

(** A call either returns a value or dereferences a nil pointer. *)
Inductive outcome (A : Type) : Type :=
| Returns (a : A)
| NilDereference.
Arguments Returns {A} a.
Arguments NilDereference {A}.

(** ** The myhostname names (conf.go, lines 337-353) *)

(** [isLocalhost] *)
Definition isLocalhost (h : string) : bool :=
  Str.stringsEqualFold h "localhost"
  || Str.stringsEqualFold h "localhost.localdomain"
  || Str.stringsHasSuffixFold h ".localhost"
  || Str.stringsHasSuffixFold h ".localhost.localdomain".

(** [isGateway] *)
Definition isGateway (h : string) : bool :=
  Str.stringsEqualFold h "_gateway".

(** [isOutbound] *)
Definition isOutbound (h : string) : bool :=
  Str.stringsEqualFold h "_outbound".

(** ** The decision engine (conf.go, lines 137-302) *)

(** The loop variables declared at lines 240-241. *)
Record scanVars : Type := mkScanVars {
  mdnsSource : bool;
  filesSource : bool;
  dnsSource : bool;
  first : string
}.

(** Their zero values. *)
Definition scanInit : scanVars :=
  {| mdnsSource := false; filesSource := false; dnsSource := false; first := "" |}.

(** One pass of a loop body ends in [continue] or in [return]. *)
Inductive step (S R : Type) : Type :=
| Continue (s : S)
| Return (r : R).
Arguments Continue {S R} s.
Arguments Return {S R} r.

Module Conf.

(** [fallbackOrder] as lines 143-155 leave it. *)
Definition fallbackOrder (c : conf) (r : option Resolver) : hostLookupOrder :=
  if netGo c || preferGo r then
    if String.eqb (goos c) "windows" then hostLookupDNS else hostLookupFilesDNS
  else hostLookupCgo.

Section Rules.

(** The value of the local variable [fallbackOrder] during lines 156-301. *)
Variable fallbackOrder : hostLookupOrder.

(** The OpenBSD branch after the nil and empty checks (lines 185-207). *)
Definition openbsdLookup (lookup : list string) : hostLookupOrder :=
  if (Z.of_nat (length lookup) <? 1) || (2 <? Z.of_nat (length lookup)) then fallbackOrder
  else
    match lookup with
    | [] => fallbackOrder
    | l0 :: rest =>
        if String.eqb l0 "bind" then
          if Z.of_nat (length lookup) =? 2 then
            match rest with
            | l1 :: _ => if String.eqb l1 "file" then hostLookupDNSFiles else fallbackOrder
            | [] => fallbackOrder
            end
          else hostLookupDNS
        else if String.eqb l0 "file" then
          if Z.of_nat (length lookup) =? 2 then
            match rest with
            | l1 :: _ => if String.eqb l1 "bind" then hostLookupFilesDNS else fallbackOrder
            | [] => fallbackOrder
            end
          else hostLookupFiles
        else fallbackOrder
    end.

(** The body of the loop over [srcs] (lines 243-275). *)
Definition scanSource (sys : system) (hostname : string)
    (v : scanVars) (src : nssSource) : step scanVars hostLookupOrder :=
  if String.eqb (source src) "myhostname" then
    if isLocalhost hostname || isGateway hostname || isOutbound hostname then
      Return fallbackOrder
    else
      let '(hn, err) := getHostname sys in
      if notNil err || Str.stringsEqualFold hostname hn then Return fallbackOrder
      else Continue v
  else if String.eqb (source src) "files" || String.eqb (source src) "dns" then
    if negb (standardCriteria src) then Return fallbackOrder
    else
      let v1 :=
        if String.eqb (source src) "files" then
          {| mdnsSource := mdnsSource v; filesSource := true;
             dnsSource := dnsSource v; first := first v |}
        else if String.eqb (source src) "dns" then
          {| mdnsSource := mdnsSource v; filesSource := filesSource v;
             dnsSource := true; first := first v |}
        else v in
      let v2 :=
        if String.eqb (first v1) "" then
          {| mdnsSource := mdnsSource v1; filesSource := filesSource v1;
             dnsSource := dnsSource v1; first := source src |}
        else v1 in
      Continue v2
  else if Str.stringsHasPrefix (source src) "mdns" then
    Continue {| mdnsSource := true; filesSource := filesSource v;
                dnsSource := dnsSource v; first := first v |}
  else Return fallbackOrder.

(** The loop [for _, src := range srcs] (lines 242-276). *)
Fixpoint scanSources (sys : system) (hostname : string)
    (srcs : list nssSource) (v : scanVars) : step scanVars hostLookupOrder :=
  match srcs with
  | [] => Continue v
  | src :: srcs' =>
      match scanSource sys hostname v src with
      | Continue v' => scanSources sys hostname srcs' v'
      | Return o => Return o
      end
  end.

(** What follows the loop (lines 281-301). *)
Definition classify (c : conf) (v : scanVars) : hostLookupOrder :=
  if mdnsSource v && hasMDNSAllow c then fallbackOrder
  else if filesSource v && dnsSource v then
    if String.eqb (first v) "files" then hostLookupFilesDNS else hostLookupDNSFiles
  else if filesSource v then hostLookupFiles
  else if dnsSource v then hostLookupDNS
  else fallbackOrder.

(** The canonical host name (lines 211-213). *)
Definition canonical (hostname : string) : string :=
  if Str.stringsHasSuffix hostname "." then Str.upto (Str.len hostname - 1) hostname
  else hostname.

(** From [getSystemNSS] to the end (lines 222-301), on the canonical host
    name. *)
Definition nssOrder (c : conf) (hostname : string) (sys : system) : hostLookupOrder :=
  let nss := getSystemNSS sys in
  let srcs := hostsSources nss in
  if IsNotExist (nss_err nss)
     || (negb (notNil (nss_err nss)) && (Z.of_nat (length srcs) =? 0)) then
    if String.eqb (goos c) "solaris" then fallbackOrder else hostLookupFilesDNS
  else if notNil (nss_err nss) then fallbackOrder
  else
    match scanSources sys hostname srcs scanInit with
    | Return o => o
    | Continue v => classify c v
    end.

(** Lines 156-301, with [fallbackOrder] already computed. *)
Definition rules (c : conf) (hostname : string) (sys : system)
    : outcome hostLookupOrder :=
  if String.eqb (goos c) "windows" || String.eqb (goos c) "plan9" then
    Returns fallbackOrder
  else if forceCgoLookupHost c then Returns fallbackOrder
  else
    match resolv c with
    | None => NilDereference
    | Some rc =>
        if unknownOpt rc || String.eqb (goos c) "android" then Returns fallbackOrder
        else if negb (Str.IndexByteString hostname "\" =? -1)
                || negb (Str.IndexByteString hostname "%" =? -1) then
          Returns fallbackOrder
        else if String.eqb (goos c) "openbsd" then
          if IsNotExist (err rc) then Returns hostLookupFiles
          else if Z.of_nat (length (lookup rc)) =? 0 then Returns hostLookupDNSFiles
          else Returns (openbsdLookup (lookup rc))
        else
          let hostname := canonical hostname in
          if Str.stringsHasSuffixFold hostname ".local" then Returns fallbackOrder
          else Returns (nssOrder c hostname sys)
    end.

End Rules.

(** [func (c *conf) hostLookupOrder(r *Resolver, hostname string)]; the
    deferred debug print does not change the result. *)
Definition hostLookupOrder (c : conf) (r : option Resolver) (hostname : string)
    (sys : system) : outcome hostLookupOrder :=
  rules (fallbackOrder c r) c hostname sys.

End Conf.

(** ** Building the process configuration (conf.go, lines 46-127) *)

(** What [initConfVal] reads from the build, the environment and the file
    system. *)
Record bootInputs : Type := mkBootInputs {
  build_netGo : bool;             (* the netgo build tag *)
  build_netCgo : bool;            (* the netcgo build tag *)
  runtime_GOOS : string;
  debug_dnsMode : string;         (* first result of goDebugNetDNS *)
  debug_level : Z;                (* second result of goDebugNetDNS *)
  env_RES_OPTIONS : string;
  env_HOSTALIASES : string;
  env_LOCALDOMAIN_defined : bool;
  env_ASR_CONFIG : string;
  read_resolv_conf : dnsConfig;   (* dnsReadConfig("/etc/resolv.conf") *)
  stat_mdns_allow : error         (* os.Stat("/etc/mdns.allow") *)
}.

(** [initConfVal], run on [confVal = &conf{goos: runtime.GOOS}]; the debug
    prints are left out. *)
Definition initConfVal (b : bootInputs) : conf :=
  let GOOS := runtime_GOOS b in
  let netGo' := build_netGo b || String.eqb (debug_dnsMode b) "go" in
  let netCgo0 := build_netCgo b || String.eqb (debug_dnsMode b) "cgo" in
  let netCgo' :=
    if negb netGo' && negb netCgo0
       && (String.eqb GOOS "windows" || String.eqb GOOS "plan9")
    then true else netCgo0 in
  let confVal (force mdns : bool) (rc : option dnsConfig) :=
    {| forceCgoLookupHost := force; netGo := netGo'; netCgo := netCgo';
       hasMDNSAllow := mdns; goos := GOOS; dnsDebugLevel := debug_level b;
       resolv := rc |} in
  if String.eqb GOOS "darwin" || String.eqb GOOS "ios" then confVal true false None
  else if String.eqb GOOS "windows" || String.eqb GOOS "plan9" then
    confVal false false None
  else if negb (String.eqb (env_RES_OPTIONS b) "")
          || negb (String.eqb (env_HOSTALIASES b) "")
          || netCgo'
          || env_LOCALDOMAIN_defined b then confVal true false None
  else if String.eqb GOOS "openbsd" && negb (String.eqb (env_ASR_CONFIG b) "") then
    confVal true false None
  else
    let rc := read_resolv_conf b in
    let force :=
      notNil (err rc) && negb (IsNotExist (err rc)) && negb (IsPermission (err rc)) in
    let mdns := negb (notNil (stat_mdns_allow b)) in
    confVal force mdns (Some rc).

(** The [resolv] pointer is read only when the platform check and the
    forced-native check both fall through. *)
Definition resolvReadable (c : conf) : bool :=
  String.eqb (goos c) "windows" || String.eqb (goos c) "plan9"
  || forceCgoLookupHost c
  || match resolv c with Some _ => true | None => false end.

(** ** The cases of [TestConfHostLookupOrder] *)

Module Tests.

(** [defaultResolvConf] *)
Definition defaultResolvConf : dnsConfig :=
  {| lookup := []; unknownOpt := false; err := Some ErrNotExist |}.

(** [&conf{resolv: defaultResolvConf}] *)
Definition plainConf : conf :=
  {| forceCgoLookupHost := false; netGo := false; netCgo := false;
     hasMDNSAllow := false; goos := ""; dnsDebugLevel := 0;
     resolv := Some defaultResolvConf |}.

Definition withGoos (g : string) (c : conf) : conf :=
  {| forceCgoLookupHost := forceCgoLookupHost c; netGo := netGo c; netCgo := netCgo c;
     hasMDNSAllow := hasMDNSAllow c; goos := g; dnsDebugLevel := dnsDebugLevel c;
     resolv := resolv c |}.

Definition withResolv (rc : dnsConfig) (c : conf) : conf :=
  {| forceCgoLookupHost := forceCgoLookupHost c; netGo := netGo c; netCgo := netCgo c;
     hasMDNSAllow := hasMDNSAllow c; goos := goos c; dnsDebugLevel := dnsDebugLevel c;
     resolv := Some rc |}.

Definition withForce (c : conf) : conf :=
  {| forceCgoLookupHost := true; netGo := netGo c; netCgo := netCgo c;
     hasMDNSAllow := hasMDNSAllow c; goos := goos c; dnsDebugLevel := dnsDebugLevel c;
     resolv := resolv c |}.

Definition withNetGo (c : conf) : conf :=
  {| forceCgoLookupHost := forceCgoLookupHost c; netGo := true; netCgo := netCgo c;
     hasMDNSAllow := hasMDNSAllow c; goos := goos c; dnsDebugLevel := dnsDebugLevel c;
     resolv := resolv c |}.

Definition withMDNSAllow (c : conf) : conf :=
  {| forceCgoLookupHost := forceCgoLookupHost c; netGo := netGo c; netCgo := netCgo c;
     hasMDNSAllow := true; goos := goos c; dnsDebugLevel := dnsDebugLevel c;
     resolv := resolv c |}.

(** A source with the default criteria. *)
Definition std (name : string) : nssSource :=
  {| source := name; standardCriteria := true |}.

(** The NSS configuration parsed from a "hosts:" line with these sources. *)
Definition nssHosts (srcs : list nssSource) : nssConf :=
  {| nss_err := None; sources := {[ "hosts" := srcs ]} |}.

(** [nssStr("")]: nothing is listed. *)
Definition nssEmpty : nssConf := {| nss_err := None; sources := ∅ |}.

(** [&nssConf{err: fs.ErrNotExist}] *)
Definition nssAbsent : nssConf := {| nss_err := Some ErrNotExist; sources := ∅ |}.

(** The test sets [getHostname] to return the row's local host name. *)
Definition sysOf (nss : nssConf) (localhost : string) : system :=
  {| getSystemNSS := nss; getHostname := (localhost, None) |}.

Definition run (c : conf) (r : option Resolver) (nss : nssConf)
    (host localhost : string) : outcome hostLookupOrder :=
  Conf.hostLookupOrder c r host (sysOf nss localhost).

(** A windows machine with no resolver override in the build or in GODEBUG. *)
Definition windowsBoot : bootInputs :=
  {| build_netGo := false; build_netCgo := false; runtime_GOOS := "windows";
     debug_dnsMode := ""; debug_level := 0; env_RES_OPTIONS := "";
     env_HOSTALIASES := ""; env_LOCALDOMAIN_defined := false; env_ASR_CONFIG := "";
     read_resolv_conf := defaultResolvConf; stat_mdns_allow := Some ErrNotExist |}.

(** The configuration which [initConfVal] computes there. *)
Definition windowsConf : conf := initConfVal windowsBoot.

(** linux_no_nsswitch.conf *)
Definition linuxConf : conf := withGoos "linux" plainConf.

(** solaris_no_nsswitch *)
Definition solarisConf : conf := withGoos "solaris" plainConf.

(** openbsd_lookup_bind_file *)
Definition openbsdBindFile : conf :=
  withGoos "openbsd"
    (withResolv {| lookup := ["bind"; "file"]; unknownOpt := false; err := None |}
       plainConf).

(** force *)
Definition forcedConf : conf := withForce plainConf.

(** "hosts: files mdns4_minimal [NOTFOUND=return] dns mdns4" *)
Definition ubuntuTrusty : nssConf :=
  nssHosts [std "files"; std "mdns4_minimal"; std "dns"; std "mdns4"].

(** "hosts: files dns myhostname" *)
Definition filesDnsMyhostname : nssConf :=
  nssHosts [std "files"; std "dns"; std "myhostname"].

(** "hosts: dns files something_custom" *)
Definition somethingCustom : nssConf :=
  nssHosts [std "dns"; std "files"; std "something_custom"].

(** An nsswitch.conf which could not be read. *)
Definition nssUnreadable : nssConf :=
  {| nss_err := Some (ErrOther "read /etc/nsswitch.conf: input/output error");
     sources := ∅ |}.

(** A linux machine started with RES_OPTIONS set: [initConfVal] forces the
    native path and reads no resolv.conf. *)
Definition linuxResOptionsBoot : bootInputs :=
  {| build_netGo := false; build_netCgo := false; runtime_GOOS := "linux";
     debug_dnsMode := ""; debug_level := 0; env_RES_OPTIONS := "ndots:2";
     env_HOSTALIASES := ""; env_LOCALDOMAIN_defined := false; env_ASR_CONFIG := "";
     read_resolv_conf := defaultResolvConf; stat_mdns_allow := Some ErrNotExist |}.

Definition linuxResOptionsConf : conf := initConfVal linuxResOptionsBoot.

(** The loop variables after the scan of [ubuntuTrusty]. *)
Definition ubuntuTrustyVars : scanVars :=
  {| mdnsSource := true; filesSource := true; dnsSource := true; first := "files" |}.

(** "foo: bar": a database other than hosts. *)
Definition nssFooBar : nssConf :=
  {| nss_err := None; sources := {[ "foo" := [std "bar"] ]} |}.

Definition openbsdWith (l : list string) : conf :=
  withGoos "openbsd"
    (withResolv {| lookup := l; unknownOpt := false; err := None |} plainConf).

(** resolv.conf-unknown *)
Definition unknownOptConf : conf :=
  withResolv {| lookup := []; unknownOpt := true; err := None |} plainConf.

(** resolver-prefergo *)
Definition darwinConf : conf :=
  {| forceCgoLookupHost := true; netGo := false; netCgo := true;
     hasMDNSAllow := false; goos := "darwin"; dnsDebugLevel := 0;
     resolv := Some defaultResolvConf |}.

(** The rows of the table: what the call returns, and what the test wants. *)
Definition table : list (outcome hostLookupOrder * hostLookupOrder) :=
  let my := "myhostname" in
  [ (run forcedConf None nssFooBar "foo.local" my, hostLookupCgo);
    (run forcedConf None nssFooBar "google.com" my, hostLookupCgo);
    (run (withNetGo plainConf) None (nssHosts [std "dns"; std "files"]) "x.com" my,
     hostLookupDNSFiles);
    (run (withNetGo plainConf) None somethingCustom "x.com" my, hostLookupFilesDNS);
    (run plainConf None ubuntuTrusty "foo.local" my, hostLookupCgo);
    (run plainConf None ubuntuTrusty "foo.local." my, hostLookupCgo);
    (run plainConf None ubuntuTrusty "foo.LOCAL" my, hostLookupCgo);
    (run plainConf None ubuntuTrusty "foo.LOCAL." my, hostLookupCgo);
    (run plainConf None ubuntuTrusty "google.com" my, hostLookupFilesDNS);
    (run (withGoos "freebsd" plainConf) None nssFooBar "google.com" my,
     hostLookupFilesDNS);
    (run (withGoos "openbsd" plainConf) None nssEmpty "google.com" my, hostLookupFiles);
    (run solarisConf None nssAbsent "google.com" my, hostLookupCgo);
    (run openbsdBindFile None nssEmpty "google.com" my, hostLookupDNSFiles);
    (run openbsdBindFile None nssEmpty "foo.local" my, hostLookupDNSFiles);
    (run (openbsdWith ["file"; "bind"]) None nssEmpty "google.com" my,
     hostLookupFilesDNS);
    (run (openbsdWith ["bind"]) None nssEmpty "google.com" my, hostLookupDNS);
    (run (openbsdWith ["file"]) None nssEmpty "google.com" my, hostLookupFiles);
    (run (openbsdWith ["file"; "bind"; "yp"]) None nssEmpty "google.com" my,
     hostLookupCgo);
    (run (openbsdWith ["file"; "foo"]) None nssEmpty "google.com" my, hostLookupCgo);
    (run (openbsdWith []) None nssEmpty "google.com" my, hostLookupDNSFiles);
    (run linuxConf None nssAbsent "google.com" my, hostLookupFilesDNS);
    (run linuxConf None nssEmpty "google.com" my, hostLookupFilesDNS);
    (run plainConf None (nssHosts [std "files"; std "mdns"; std "dns"]) "x.com" my,
     hostLookupFilesDNS);
    (run plainConf None (nssHosts [std "files"; std "mdns"; std "dns"]) "x.local" my,
     hostLookupCgo);
    (run plainConf None (nssHosts [std "dns"]) "x.com" my, hostLookupDNS);
    (run plainConf None (nssHosts [std "dns"]) "x\.com" my, hostLookupCgo);
    (run plainConf None (nssHosts [std "dns"]) "foo.com%en0" my, hostLookupCgo);
    (run (withMDNSAllow plainConf) None (nssHosts [std "files"; std "mdns"; std "dns"])
       "x.com" my, hostLookupCgo);
    (run (withMDNSAllow plainConf) None (nssHosts [std "files"; std "mdns"; std "dns"])
       "x.local" my, hostLookupCgo);
    (run plainConf None (nssHosts [std "files"; std "dns"]) "x.com" my,
     hostLookupFilesDNS);
    (run plainConf None (nssHosts [std "files"; std "dns"]) "x" my, hostLookupFilesDNS);
    (run plainConf None (nssHosts [std "files"; std "dns"]) "x.local" my, hostLookupCgo);
    (run plainConf None (nssHosts [std "dns"; std "files"]) "x.com" my,
     hostLookupDNSFiles);
    (run plainConf None (nssHosts [std "dns"; std "files"]) "x" my, hostLookupDNSFiles);
    (run plainConf None (nssHosts [std "dns"; std "files"]) "x.local" my, hostLookupCgo);
    (run plainConf None somethingCustom "x.com" my, hostLookupCgo);
    (run plainConf None filesDnsMyhostname "x.com" my, hostLookupFilesDNS);
    (run plainConf None filesDnsMyhostname "myhostname" my, hostLookupCgo);
    (run plainConf None filesDnsMyhostname "myHostname" my, hostLookupCgo);
    (run plainConf None filesDnsMyhostname "myhostname.dot" "myhostname.dot",
     hostLookupCgo);
    (run plainConf None filesDnsMyhostname "myHostname.dot" "myhostname.dot",
     hostLookupCgo);
    (run plainConf None filesDnsMyhostname "_gateway" my, hostLookupCgo);
    (run plainConf None filesDnsMyhostname "_Gateway" my, hostLookupCgo);
    (run plainConf None filesDnsMyhostname "_outbound" my, hostLookupCgo);
    (run plainConf None filesDnsMyhostname "_Outbound" my, hostLookupCgo);
    (run plainConf None filesDnsMyhostname "localhost" my, hostLookupCgo);
    (run plainConf None filesDnsMyhostname "Localhost" my, hostLookupCgo);
    (run plainConf None filesDnsMyhostname "anything.localhost" my, hostLookupCgo);
    (run plainConf None filesDnsMyhostname "Anything.localhost" my, hostLookupCgo);
    (run plainConf None filesDnsMyhostname "localhost.localdomain" my, hostLookupCgo);
    (run plainConf None filesDnsMyhostname "Localhost.Localdomain" my, hostLookupCgo);
    (run plainConf None filesDnsMyhostname "anything.localhost.localdomain" my,
     hostLookupCgo);
    (run plainConf None filesDnsMyhostname "Anything.Localhost.Localdomain" my,
     hostLookupCgo);
    (run plainConf None filesDnsMyhostname "somehostname" my, hostLookupFilesDNS);
    (run plainConf None filesDnsMyhostname "" my, hostLookupFilesDNS);
    (run plainConf None
       (nssHosts [std "files"; std "myhostname"; std "mdns4_minimal"; std "dns";
                  std "mdns4"]) "x.com" my, hostLookupFilesDNS);
    (run plainConf None
       (nssHosts [std "files"; std "myhostname"; std "mdns4_minimal"; std "dns";
                  std "mdns4"]) "somehostname" my, hostLookupFilesDNS);
    (run plainConf None
       (nssHosts [std "files"; std "myhostname"; std "mdns4_minimal"; std "dns";
                  std "mdns4"]) "myhostname" my, hostLookupCgo);
    (run plainConf None (nssHosts [std "dns"; std "files"]) "somehostname" my,
     hostLookupDNSFiles);
    (run unknownOptConf None nssFooBar "google.com" my, hostLookupCgo);
    (run (withGoos "android" plainConf) None nssEmpty "x.com" my, hostLookupCgo);
    (run darwinConf (Some {| PreferGo := true |}) nssEmpty "localhost" my,
     hostLookupFilesDNS) ].

End Tests.

(** ** errors.Join (errors/join.go) *)

Module Errors.

(** The [error] interface: a type with an [Error] method. *)
Class Error (E : Type) : Type := error_string : E -> string.

(** The byte '\n'. *)
Definition newline : string := String (ascii_of_nat 10) EmptyString.

Section Join.

Context {E : Type} `{Error E}.

(** [joinError]; its elements are the non-nil errors which were joined. *)
Record joinError : Type := mkJoinError { errs : list E }.

(** The first loop of [Join]: [n] counts the non-nil arguments. *)
Fixpoint countNonNil (args : list (option E)) (n : Z) : Z :=
  match args with
  | [] => n
  | Some _ :: rest => countNonNil rest (n + 1)
  | None :: rest => countNonNil rest n
  end.

(** The second loop of [Join]: the non-nil arguments are appended. *)
Fixpoint appendNonNil (args : list (option E)) (acc : list E) : list E :=
  match args with
  | [] => acc
  | Some e :: rest => appendNonNil rest (acc ++ [e])
  | None :: rest => appendNonNil rest acc
  end.

(** [Join]; a nil argument is [None], and so is the nil result. *)
Definition Join (args : list (option E)) : option joinError :=
  let n := countNonNil args 0 in
  if n =? 0 then None
  else Some {| errs := appendNonNil args [] |}.

(** The loop of the [Error] method, at index [i] with buffer [b]. *)
Fixpoint errorLoop (i : Z) (es : list E) (b : string) : string :=
  match es with
  | [] => b
  | e :: rest =>
      let b1 := if 0 <? i then String.append b newline else b in
      errorLoop (i + 1) rest (String.append b1 (error_string e))
  end.

(** The [Error] method of [joinError]. *)
Definition joinError_Error (e : joinError) : string :=
  errorLoop 0 (errs e) "".

(** The [Unwrap] method of [joinError]. *)
Definition Unwrap (e : joinError) : list E := errs e.

End Join.

Arguments joinError E : clear implicits.

(** A [joinError] is an [error] again. *)
#[export] Instance joinError_is_Error {E : Type} `{Error E} : Error (joinError E) :=
  joinError_Error.

(** A plain error carrying its text, as [errors.New] makes them. *)
#[export] Instance errorString : Error string := fun s => s.

End Errors.

(** ** The vocabulary of the specification *)

(** Steps 2 to 4 of the rule chain fall through: the platform has a native
    resolver, native resolution is not forced, the resolver configuration is
    there without an unrecognized directive, the platform is not android,
    and the host name has neither a backslash nor a percent sign. *)
Definition reachesStep5 (c : conf) (hostname : string) : bool :=
  negb (String.eqb (goos c) "windows") && negb (String.eqb (goos c) "plan9")
  && negb (forceCgoLookupHost c)
  && match resolv c with
     | Some rc => negb (unknownOpt rc)
     | None => false
     end
  && negb (String.eqb (goos c) "android")
  && (Str.IndexByteString hostname "\" =? -1)
  && (Str.IndexByteString hostname "%" =? -1).

(** Step 6 is reached: step 5 is, and the platform is not openbsd. *)
Definition reachesStep6 (c : conf) (hostname : string) : bool :=
  reachesStep5 c hostname && negb (String.eqb (goos c) "openbsd").

(** Step 7 is reached: the canonical host name does not end in .local. *)
Definition reachesStep7 (c : conf) (hostname : string) : bool :=
  reachesStep6 c hostname
  && negb (Str.stringsHasSuffixFold (Conf.canonical hostname) ".local").

(** Step 8 is reached: the NSS configuration was read without error and
    lists a source for hosts. *)
Definition reachesStep8 (c : conf) (hostname : string) (sys : system) : bool :=
  reachesStep7 c hostname
  && negb (notNil (nss_err (getSystemNSS sys)))
  && negb (Z.of_nat (length (hostsSources (getSystemNSS sys))) =? 0).

(** The table of step 5. *)
Definition openbsdTable (fallback : hostLookupOrder) (rc : dnsConfig) : hostLookupOrder :=
  if IsNotExist (err rc) then hostLookupFiles
  else if decide (lookup rc = []) then hostLookupDNSFiles
  else if decide (lookup rc = ["bind"]) then hostLookupDNS
  else if decide (lookup rc = ["bind"; "file"]) then hostLookupDNSFiles
  else if decide (lookup rc = ["file"]) then hostLookupFiles
  else if decide (lookup rc = ["file"; "bind"]) then hostLookupFilesDNS
  else fallback.

(** The fallback of step 1. *)
Definition fallbackTable (builtinSelected : bool) (os : string) : hostLookupOrder :=
  if builtinSelected then
    if decide (os = "windows") then hostLookupDNS else hostLookupFilesDNS
  else hostLookupCgo.

Definition named (name : string) (src : nssSource) : bool :=
  bool_decide (source src = name).

(** A source of the given name is listed. *)
Definition present (name : string) (srcs : list nssSource) : bool :=
  existsb (named name) srcs.

(** The first files or dns source of a list, by name. *)
Definition firstSeen (srcs : list nssSource) : string :=
  match List.find (fun src => named "files" src || named "dns" src) srcs with
  | Some src => source src
  | None => ""
  end.

(** Of the files and dns sources listed, the first one is files. *)
Definition filesAppearedFirst (srcs : list nssSource) : bool :=
  match List.find (fun src => named "files" src || named "dns" src) srcs with
  | Some src => named "files" src
  | None => false
  end.

(** The table of step 10. *)
Definition finalTable (fallback : hostLookupOrder) (srcs : list nssSource)
    : hostLookupOrder :=
  match present "files" srcs, present "dns" srcs with
  | true, true =>
      if filesAppearedFirst srcs then hostLookupFilesDNS else hostLookupDNSFiles
  | true, false => hostLookupFiles
  | false, true => hostLookupDNS
  | false, false => fallback
  end.

(** The condition on which the myhostname source punts, on the host name
    [h] and the result of the machine host name lookup. *)
Definition myhostnamePunts (h : string) (machine : string * error) : bool :=
  isLocalhost h || isGateway h || isOutbound h
  || notNil (snd machine) || Str.stringsEqualFold h (fst machine).

(** The sources other than myhostname. *)
Definition withoutMyhostname (srcs : list nssSource) : list nssSource :=
  List.filter (fun src => negb (named "myhostname" src)) srcs.

(** A source of the given name with the default criteria. *)
Definition standardSource (name : string) : nssSource :=
  {| source := name; standardCriteria := true |}.

(** The non-nil arguments, in their order. *)
Fixpoint nonNil {E : Type} (args : list (option E)) : list E :=
  match args with
  | [] => []
  | Some e :: rest => e :: nonNil rest
  | None :: rest => nonNil rest
  end.

(** The text which the [Error] loop adds after the first element. *)
Fixpoint newlineEach {E : Type} `{Errors.Error E} (es : list E) : string :=
  match es with
  | [] => ""
  | e :: rest =>
      String.append Errors.newline
        (String.append (Errors.error_string e) (newlineEach rest))
  end.

(** A source name the scan does not know. *)
Definition unknownSource (src : nssSource) : bool :=
  negb (named "myhostname" src) && negb (named "files" src)
  && negb (named "dns" src) && negb (Str.stringsHasPrefix (source src) "mdns").

(** A files or dns source with criteria other than the default ones. *)
Definition nonStandard (src : nssSource) : bool :=
  (named "files" src || named "dns" src) && negb (standardCriteria src).

(** ** The rest of conf.go *)

(** [o == hostLookupCgo] *)
Definition isCgo (o : hostLookupOrder) : bool :=
  match o with
  | hostLookupCgo => true
  | _ => false
  end.

(** [canUseCgo] (lines 131-133): the order for the nil resolver and the empty
    host name, compared with [hostLookupCgo]. *)
Definition canUseCgo (c : conf) (sys : system) : outcome bool :=
  match Conf.hostLookupOrder c None "" sys with
  | Returns o => Returns (isCgo o)
  | NilDereference => NilDereference
  end.

(** The byte [b] as a number. *)
Definition byteZ (b : ascii) : Z := Z.of_N (N_of_ascii b).

Section DebugNetDNS.

(** [dtoi] (net/parse.go) is outside the sources at hand and is taken as
    given: the number read, the bytes consumed, and success. *)
Variable dtoi : string -> Z * Z * bool.

(** The closure [parsePart] (lines 318-327); the named results [dnsMode] and
    [debugLevel] which it assigns are passed in and out. *)
Definition parsePart (s : string) (results : string * Z) : string * Z :=
  match s with
  | EmptyString => results
  | String s0 _ =>
      if (byteZ "0" <=? byteZ s0) && (byteZ s0 <=? byteZ "9") then
        let '(n, _, _) := dtoi s in (fst results, n)
      else (s, snd results)
  end.

(** [goDebugNetDNS] (lines 316-335) on the value of the GODEBUG netdns
    setting; the results start as the empty string and zero. *)
Definition goDebugNetDNS (goDebug : string) : string * Z :=
  let i := Str.IndexByteString goDebug "+" in
  if negb (i =? -1) then
    parsePart (Str.from (i + 1) goDebug) (parsePart (Str.upto i goDebug) ("", 0))
  else parsePart goDebug ("", 0).

End DebugNetDNS.

(** ** More vocabulary *)

(** The platform check or the forced-native check answers. *)
Definition answersEarly (c : conf) : bool :=
  String.eqb (goos c) "windows" || String.eqb (goos c) "plan9"
  || forceCgoLookupHost c.

(** The error of reading resolv.conf is neither not-exist nor permission. *)
Definition unreadable (rc : dnsConfig) : bool :=
  notNil (err rc) && negb (IsNotExist (err rc)) && negb (IsPermission (err rc)).

(** The non-go mode asked for by the build or by GODEBUG. *)
Definition askedCgo (b : bootInputs) : bool :=
  build_netCgo b || String.eqb (debug_dnsMode b) "cgo".

(** What makes [initConfVal] leave a configuration whose calls are answered
    by the platform check or the forced-native check. *)
Definition earlyCause (b : bootInputs) : bool :=
  (String.eqb (runtime_GOOS b) "darwin" || String.eqb (runtime_GOOS b) "ios")
  || (String.eqb (runtime_GOOS b) "windows" || String.eqb (runtime_GOOS b) "plan9")
  || (negb (String.eqb (env_RES_OPTIONS b) "")
      || negb (String.eqb (env_HOSTALIASES b) "")
      || askedCgo b
      || env_LOCALDOMAIN_defined b)
  || (String.eqb (runtime_GOOS b) "openbsd" && negb (String.eqb (env_ASR_CONFIG b) ""))
  || unreadable (read_resolv_conf b).

(** A source whose name starts with mdns. *)
Definition mdnsNamed (src : nssSource) : bool :=
  Str.stringsHasPrefix (source src) "mdns".

(** A host name in lower case, byte by byte. *)
Fixpoint lowerString (s : string) : string :=
  match s with
  | EmptyString => EmptyString
  | String a s' => String (Str.lowerASCII a) (lowerString s')
  end.

(** The host name has neither a backslash nor a percent sign. *)
Definition plainName (hostname : string) : bool :=
  (Str.IndexByteString hostname "\" =? -1) && (Str.IndexByteString hostname "%" =? -1).

(** A string which starts with a decimal digit. *)
Definition startsWithDigit (s : string) : bool :=
  match s with
  | EmptyString => false
  | String s0 _ => (byteZ "0" <=? byteZ s0) && (byteZ s0 <=? byteZ "9")
  end.

(** The errors a joined error wraps, none for the nil error. *)
Definition unwrapped {E : Type} (e : option (Errors.joinError E)) : list E :=
  match e with
  | Some je => Errors.Unwrap je
  | None => []
  end.

(** The text of a joined error, empty for the nil error. *)
Definition textOf {E : Type} `{Errors.Error E} (e : option (Errors.joinError E)) : string :=
  match e with
  | Some je => Errors.joinError_Error je
  | None => ""
  end.

(** The number of bytes of the texts of a list of errors. *)
Fixpoint textBytes {E : Type} `{Errors.Error E} (es : list E) : nat :=
  match es with
  | [] => 0
  | e :: rest => (String.length (Errors.error_string e) + textBytes rest)%nat
  end.

(** ** More cases *)

Module Cases.

(** A decimal reader to run the examples with, in the place of [dtoi]: the
    digits at the head of the string, read up to 0xFFFFFF. *)
Fixpoint digits (s : string) (n i : Z) : Z * Z * bool :=
  match s with
  | EmptyString => if i =? 0 then (0, 0, false) else (n, i, true)
  | String b s' =>
      if (byteZ "0" <=? byteZ b) && (byteZ b <=? byteZ "9") then
        let n' := n * 10 + (byteZ b - byteZ "0") in
        if 16777215 <=? n' then (16777215, i, false) else digits s' n' (i + 1)
      else if i =? 0 then (0, 0, false) else (n, i, true)
  end.

Definition decimal (s : string) : Z * Z * bool := digits s 0 0.

(** A linux machine with nothing set, a resolv.conf and no mdns.allow. *)
Definition linuxBoot : bootInputs :=
  {| build_netGo := false; build_netCgo := false; runtime_GOOS := "linux";
     debug_dnsMode := ""; debug_level := 0; env_RES_OPTIONS := "";
     env_HOSTALIASES := ""; env_LOCALDOMAIN_defined := false; env_ASR_CONFIG := "";
     read_resolv_conf := {| lookup := []; unknownOpt := false; err := None |};
     stat_mdns_allow := Some ErrNotExist |}.

(** The same machine with HOSTALIASES set. *)
Definition hostAliasesBoot : bootInputs :=
  {| build_netGo := false; build_netCgo := false; runtime_GOOS := "linux";
     debug_dnsMode := ""; debug_level := 0; env_RES_OPTIONS := "";
     env_HOSTALIASES := "/etc/host.aliases"; env_LOCALDOMAIN_defined := false;
     env_ASR_CONFIG := "";
     read_resolv_conf := {| lookup := []; unknownOpt := false; err := None |};
     stat_mdns_allow := Some ErrNotExist |}.

(** A darwin machine. *)
Definition darwinBoot : bootInputs :=
  {| build_netGo := false; build_netCgo := false; runtime_GOOS := "darwin";
     debug_dnsMode := ""; debug_level := 0; env_RES_OPTIONS := "";
     env_HOSTALIASES := ""; env_LOCALDOMAIN_defined := false; env_ASR_CONFIG := "";
     read_resolv_conf := {| lookup := []; unknownOpt := false; err := None |};
     stat_mdns_allow := Some ErrNotExist |}.

(** A linux machine whose resolv.conf cannot be read. *)
Definition brokenResolvBoot : bootInputs :=
  {| build_netGo := false; build_netCgo := false; runtime_GOOS := "linux";
     debug_dnsMode := ""; debug_level := 0; env_RES_OPTIONS := "";
     env_HOSTALIASES := ""; env_LOCALDOMAIN_defined := false; env_ASR_CONFIG := "";
     read_resolv_conf :=
       {| lookup := []; unknownOpt := false;
          err := Some (ErrOther "read /etc/resolv.conf: is a directory") |};
     stat_mdns_allow := Some ErrNotExist |}.

(** A linux machine run with GODEBUG=netdns=go. *)
Definition netdnsGoBoot : bootInputs :=
  {| build_netGo := false; build_netCgo := false; runtime_GOOS := "linux";
     debug_dnsMode := "go"; debug_level := 0; env_RES_OPTIONS := "";
     env_HOSTALIASES := ""; env_LOCALDOMAIN_defined := false; env_ASR_CONFIG := "";
     read_resolv_conf := {| lookup := []; unknownOpt := false; err := None |};
     stat_mdns_allow := Some ErrNotExist |}.

(** "hosts: files mdns dns" *)
Definition filesMdnsDns : nssConf :=
  Tests.nssHosts [Tests.std "files"; Tests.std "mdns"; Tests.std "dns"].

(** "hosts: files dns" *)
Definition filesDns : nssConf := Tests.nssHosts [Tests.std "files"; Tests.std "dns"].

End Cases.

(** ** The rules which punt *)

(** Some tail of [s] is [x]. *)
Fixpoint endsWith (s x : string) : bool :=
  String.eqb s x
  || match s with
     | EmptyString => false
     | String _ s' => endsWith s' x
     end.

(** The host name [h] is [name], letter case apart. *)
Definition sameName (h name : string) : bool :=
  String.eqb (lowerString h) (lowerString name).

(** The host name [h] is a name under [domain]: letter case apart, it ends
    in a dot followed by [domain]. *)
Definition subdomainOf (domain h : string) : bool :=
  endsWith (lowerString h) (String "."%char (lowerString domain)).

(** The localhost forms: localhost, localhost.localdomain, and the names
    under either. *)
Definition localhostForm (h : string) : bool :=
  sameName h "localhost" || sameName h "localhost.localdomain"
  || subdomainOf "localhost" h || subdomainOf "localhost.localdomain" h.

(** When the myhostname source gives the fallback: the host name is a
    localhost form, _gateway or _outbound, or the machine host name cannot
    be fetched, or the host name is the machine host name. *)
Definition myhostnameFallback (h : string) (machine : string * error) : bool :=
  localhostForm h || sameName h "_gateway" || sameName h "_outbound"
  || notNil (snd machine) || sameName h (fst machine).

(** A source on which the scan of step 8 punts. *)
Definition puntingSource (h : string) (machine : string * error) (src : nssSource)
    : bool :=
  (named "myhostname" src && myhostnameFallback h machine)
  || nonStandard src || unknownSource src.

(** The lookup lists which step 5 knows. *)
Definition listedLookups : list (list string) :=
  [ []; ["bind"]; ["bind"; "file"]; ["file"]; ["file"; "bind"] ].

(** Step 2 punts: the platform has no native resolver. *)
Definition punts2 (c : conf) : bool :=
  String.eqb (goos c) "windows" || String.eqb (goos c) "plan9".

(** Step 3 punts: native resolution is forced, or resolv.conf has an
    unrecognized directive, or the platform is android. *)
Definition punts3 (c : conf) : bool :=
  negb (punts2 c)
  && (forceCgoLookupHost c
      || match resolv c with
         | Some rc => unknownOpt rc || String.eqb (goos c) "android"
         | None => false
         end).

(** Step 4 punts: it is reached with a resolver configuration, and the host
    name has a backslash or a percent sign. *)
Definition punts4 (c : conf) (hostname : string) : bool :=
  negb (punts2 c) && negb (punts3 c)
  && match resolv c with Some _ => true | None => false end
  && negb (plainName hostname).

(** Step 5 punts: on openbsd with a resolv.conf whose lookup list is none of
    the listed ones. *)
Definition punts5 (c : conf) (hostname : string) : bool :=
  reachesStep5 c hostname && String.eqb (goos c) "openbsd"
  && match resolv c with
     | Some rc =>
         negb (IsNotExist (err rc))
         && negb (existsb (fun l => bool_decide (lookup rc = l)) listedLookups)
     | None => false
     end.

(** Step 6 punts: the canonical host name ends in .local. *)
Definition punts6 (c : conf) (hostname : string) : bool :=
  reachesStep6 c hostname
  && Str.stringsHasSuffixFold (Conf.canonical hostname) ".local".

(** Step 7 punts: on solaris when the NSS file is absent or lists nothing
    for hosts, and everywhere when it could not be read or parsed. *)
Definition punts7 (c : conf) (hostname : string) (sys : system) : bool :=
  reachesStep7 c hostname
  && (((IsNotExist (nss_err (getSystemNSS sys))
        || (negb (notNil (nss_err (getSystemNSS sys)))
            && (Z.of_nat (length (hostsSources (getSystemNSS sys))) =? 0)))
       && String.eqb (goos c) "solaris")
      || (notNil (nss_err (getSystemNSS sys))
          && negb (IsNotExist (nss_err (getSystemNSS sys))))).

(** Step 8 punts: a source punts. *)
Definition punts8 (c : conf) (hostname : string) (sys : system) : bool :=
  reachesStep8 c hostname sys
  && existsb (puntingSource (Conf.canonical hostname) (getHostname sys))
       (hostsSources (getSystemNSS sys)).

(** Step 9 punts: no source does, an mdns source is listed and the machine
    has an mDNS allow-list. *)
Definition punts9 (c : conf) (hostname : string) (sys : system) : bool :=
  reachesStep8 c hostname sys
  && negb (existsb (puntingSource (Conf.canonical hostname) (getHostname sys))
             (hostsSources (getSystemNSS sys)))
  && (existsb mdnsNamed (hostsSources (getSystemNSS sys)) && hasMDNSAllow c).

(** Step 10 punts: no source does, and neither files nor dns is listed. *)
Definition punts10 (c : conf) (hostname : string) (sys : system) : bool :=
  reachesStep8 c hostname sys
  && negb (existsb (puntingSource (Conf.canonical hostname) (getHostname sys))
             (hostsSources (getSystemNSS sys)))
  && negb (present "files" (hostsSources (getSystemNSS sys)))
  && negb (present "dns" (hostsSources (getSystemNSS sys))).

(** Some rule of the chain punts. *)
Definition puntingRule (c : conf) (hostname : string) (sys : system) : bool :=
  punts2 c || punts3 c || punts4 c hostname || punts5 c hostname
  || punts6 c hostname || punts7 c hostname sys || punts8 c hostname sys
  || punts9 c hostname sys || punts10 c hostname sys.

(** A plain configuration with the Go resolver forced by the build. *)
Definition netGoConf : conf :=
  {| forceCgoLookupHost := false; netGo := true; netCgo := false;
     hasMDNSAllow := false; goos := "linux"; dnsDebugLevel := 0;
     resolv := Some Tests.defaultResolvConf |}.

(** ** Proof tools *)

(** Break the boolean hypotheses into their atoms. *)
Ltac bool_hyps :=
  repeat match goal with
  | H : _ && _ = true |- _ => apply andb_true_iff in H; destruct H
  | H : _ || _ = false |- _ => apply orb_false_iff in H; destruct H
  | H : negb _ = true |- _ => apply negb_true_iff in H
  | H : negb _ = false |- _ => apply negb_false_iff in H
  end.

(** Rewrite with every boolean equation at hand. *)
Ltac bool_rewrite :=
  repeat match goal with
  | H : ?b = true |- context [?b] => rewrite H
  | H : ?b = false |- context [?b] => rewrite H
  end.

Lemma named_eqb (name : string) (src : nssSource) :
  String.eqb (source src) name = named name src.
Proof.
  unfold named. destruct (String.eqb_spec (source src) name) as [Heq | Hne].
  - symmetry. now apply bool_decide_eq_true.
  - symmetry. now apply bool_decide_eq_false.
Qed.

Lemma length_zero_nil {A : Type} (l : list A) :
  (Z.of_nat (length l) =? 0) = true <-> l = [].
Proof.
  rewrite Z.eqb_eq. destruct l as [| a l]; simpl; split; intros Hl;
    try reflexivity; try discriminate; lia.
Qed.

(** ** The model against the repository's tests *)

(** Every row of [TestConfHostLookupOrder] holds of the model. *)
Lemma test_table_holds :
  Forall (fun row => fst row = Returns (snd row)) Tests.table.
Proof.
  unfold Tests.table. cbv zeta.
  repeat (constructor; [vm_compute; reflexivity |]).
  constructor.
Qed.

(** ** Stripping the trailing dot *)

Lemma length_append (s t : string) :
  String.length (String.append s t) = (String.length s + String.length t)%nat.
Proof.
  induction s as [| a s IH]; [reflexivity |].
  change (S (String.length (String.append s t))
          = S (String.length s + String.length t)%nat).
  now rewrite IH.
Qed.

Lemma substring_append_head (s t : string) :
  String.substring 0 (String.length s) (String.append s t) = s.
Proof.
  induction s as [| a s IH].
  - simpl. now destruct t.
  - change (String a (String.substring 0 (String.length s) (String.append s t))
            = String a s).
    now rewrite IH.
Qed.

Lemma substring_append_tail (s t : string) (n : nat) :
  String.substring (String.length s) n (String.append s t) = String.substring 0 n t.
Proof.
  induction s as [| a s IH]; [reflexivity |].
  change (String.substring (String.length s) n (String.append s t)
          = String.substring 0 n t).
  exact IH.
Qed.

(** A name written with a trailing dot loses exactly that dot. *)
Lemma canonical_trailing_dot (h : string) :
  Conf.canonical (String.append h ".") = h.
Proof.
  unfold Conf.canonical, Str.stringsHasSuffix, Str.from, Str.upto, Str.len.
  rewrite length_append. simpl (String.length ".").
  replace (Z.to_nat (Z.of_nat (String.length h + 1) - Z.of_nat 1))
    with (String.length h) by lia.
  replace (Z.to_nat (Z.of_nat (String.length h + 1) - 1))
    with (String.length h) by lia.
  replace (String.length h + 1 - String.length h)%nat with 1%nat by lia.
  rewrite substring_append_tail, substring_append_head.
  replace (Z.of_nat 1 <=? Z.of_nat (String.length h + 1)) with true
    by (symmetry; apply Z.leb_le; lia).
  reflexivity.
Qed.

(** A name written without a trailing dot is left as it is. *)
Lemma canonical_no_trailing_dot (h : string) :
  Str.stringsHasSuffix h "." = false ->
  Conf.canonical h = h.
Proof.
  unfold Conf.canonical. now intros ->.
Qed.

(** ** How far a call gets *)

Section Reach.

Variable fb : hostLookupOrder.
Variables (c : conf) (hostname : string) (sys : system).

Lemma reachesStep5_resolv :
  reachesStep5 c hostname = true ->
  exists rc, resolv c = Some rc /\ unknownOpt rc = false.
Proof.
  unfold reachesStep5. intros Hr. bool_hyps.
  destruct (resolv c) as [rc |]; [| discriminate].
  exists rc. bool_hyps. now split.
Qed.

Lemma rules_step5 (rc : dnsConfig) :
  reachesStep5 c hostname = true ->
  resolv c = Some rc ->
  String.eqb (goos c) "openbsd" = true ->
  Conf.rules fb c hostname sys =
    Returns (if IsNotExist (err rc) then hostLookupFiles
             else if Z.of_nat (length (lookup rc)) =? 0 then hostLookupDNSFiles
             else Conf.openbsdLookup fb (lookup rc)).
Proof.
  unfold reachesStep5. intros Hr Hrc Hos. rewrite Hrc in Hr. bool_hyps.
  unfold Conf.rules. rewrite Hrc. bool_rewrite. simpl.
  destruct (IsNotExist (err rc)); [reflexivity |].
  now destruct (Z.of_nat (length (lookup rc)) =? 0).
Qed.

Lemma rules_step6 :
  reachesStep6 c hostname = true ->
  Conf.rules fb c hostname sys =
    Returns (if Str.stringsHasSuffixFold (Conf.canonical hostname) ".local" then fb
             else Conf.nssOrder fb c (Conf.canonical hostname) sys).
Proof.
  unfold reachesStep6. intros Hr. bool_hyps.
  destruct (reachesStep5_resolv H) as (rc & Hrc & Hopt).
  unfold reachesStep5 in H. rewrite Hrc in H. bool_hyps.
  unfold Conf.rules. rewrite Hrc. bool_rewrite. simpl.
  now destruct (Str.stringsHasSuffixFold (Conf.canonical hostname) ".local").
Qed.

Lemma rules_step7 :
  reachesStep7 c hostname = true ->
  Conf.rules fb c hostname sys =
    Returns (Conf.nssOrder fb c (Conf.canonical hostname) sys).
Proof.
  unfold reachesStep7. intros Hr. bool_hyps.
  rewrite rules_step6 by assumption. now bool_rewrite.
Qed.

Lemma rules_step8 :
  reachesStep8 c hostname sys = true ->
  Conf.rules fb c hostname sys =
    Returns (match Conf.scanSources fb sys (Conf.canonical hostname)
                     (hostsSources (getSystemNSS sys)) scanInit with
             | Return o => o
             | Continue v => Conf.classify fb c v
             end).
Proof.
  unfold reachesStep8. intros Hr. bool_hyps.
  rewrite rules_step7 by assumption. unfold Conf.nssOrder.
  destruct (nss_err (getSystemNSS sys)) as [e |]; [discriminate |].
  simpl. now bool_rewrite.
Qed.

End Reach.

(** ** Which results depend on the fallback *)

Section Punts.

Variables (c : conf) (sys : system) (hostname : string).

Lemma openbsdLookup_punts (l : list string) :
  (forall fb, Conf.openbsdLookup fb l = fb)
  \/ (exists o, forall fb, Conf.openbsdLookup fb l = o).
Proof.
  unfold Conf.openbsdLookup.
  destruct ((Z.of_nat (length l) <? 1) || (2 <? Z.of_nat (length l))); [now left |].
  destruct l as [| l0 rest]; [now left |].
  destruct (String.eqb l0 "bind"), (String.eqb l0 "file"),
    (Z.of_nat (length (l0 :: rest)) =? 2); try (now left); try (right; eexists; reflexivity);
    destruct rest as [| l1 rest]; try (now left);
    try (destruct (String.eqb l1 "file")); try (destruct (String.eqb l1 "bind"));
    try (now left); right; eexists; reflexivity.
Qed.

Lemma scanSource_punts (v : scanVars) (src : nssSource) :
  (forall fb, Conf.scanSource fb sys hostname v src = Return fb)
  \/ (exists v', forall fb, Conf.scanSource fb sys hostname v src = Continue v').
Proof.
  unfold Conf.scanSource.
  destruct (String.eqb (source src) "myhostname").
  - destruct (isLocalhost hostname || isGateway hostname || isOutbound hostname);
      [now left |].
    destruct (getHostname sys) as [hn e].
    destruct (notNil e || Str.stringsEqualFold hostname hn); [now left |].
    right. now exists v.
  - destruct (String.eqb (source src) "files" || String.eqb (source src) "dns").
    + destruct (negb (standardCriteria src)); [now left |].
      right. eexists. reflexivity.
    + destruct (Str.stringsHasPrefix (source src) "mdns"); [| now left].
      right. eexists. reflexivity.
Qed.

Lemma scanSources_punts (srcs : list nssSource) :
  forall v,
    (forall fb, Conf.scanSources fb sys hostname srcs v = Return fb)
    \/ (exists v', forall fb, Conf.scanSources fb sys hostname srcs v = Continue v').
Proof.
  induction srcs as [| src srcs IH]; intros v; simpl.
  - right. now exists v.
  - destruct (scanSource_punts v src) as [Hret | [v' Hcont]].
    + left. intros fb. now rewrite Hret.
    + destruct (IH v') as [Hret | [v'' Hcont']].
      * left. intros fb. now rewrite Hcont.
      * right. exists v''. intros fb. now rewrite Hcont.
Qed.

Lemma classify_punts (v : scanVars) :
  (forall fb, Conf.classify fb c v = fb)
  \/ (exists o, forall fb, Conf.classify fb c v = o).
Proof.
  unfold Conf.classify.
  destruct (mdnsSource v && hasMDNSAllow c); [now left |].
  destruct (filesSource v && dnsSource v).
  - right. destruct (String.eqb (first v) "files"); eexists; reflexivity.
  - destruct (filesSource v); [right; eexists; reflexivity |].
    destruct (dnsSource v); [right; eexists; reflexivity | now left].
Qed.

Lemma nssOrder_punts :
  (forall fb, Conf.nssOrder fb c hostname sys = fb)
  \/ (exists o, forall fb, Conf.nssOrder fb c hostname sys = o).
Proof.
  unfold Conf.nssOrder.
  destruct (IsNotExist (nss_err (getSystemNSS sys))
            || negb (notNil (nss_err (getSystemNSS sys)))
               && (Z.of_nat (length (hostsSources (getSystemNSS sys))) =? 0)).
  - destruct (String.eqb (goos c) "solaris"); [now left |].
    right. eexists. reflexivity.
  - destruct (notNil (nss_err (getSystemNSS sys))); [now left |].
    destruct (scanSources_punts (hostsSources (getSystemNSS sys)) scanInit)
      as [Hret | [v Hcont]].
    + left. intros fb. now rewrite Hret.
    + destruct (classify_punts v) as [Hfb | [o Ho]].
      * left. intros fb. now rewrite Hcont.
      * right. exists o. intros fb. now rewrite Hcont.
Qed.

End Punts.

Lemma rules_punts (c : conf) (hostname : string) (sys : system) :
  (forall fb, Conf.rules fb c hostname sys = Returns fb)
  \/ (exists o, forall fb, Conf.rules fb c hostname sys = Returns o)
  \/ (forall fb, Conf.rules fb c hostname sys = NilDereference).
Proof.
  unfold Conf.rules.
  destruct (String.eqb (goos c) "windows" || String.eqb (goos c) "plan9"); [now left |].
  destruct (forceCgoLookupHost c); [now left |].
  destruct (resolv c) as [rc |]; [| now right; right].
  destruct (unknownOpt rc || String.eqb (goos c) "android"); [now left |].
  destruct (negb (Str.IndexByteString hostname "\" =? -1)
            || negb (Str.IndexByteString hostname "%" =? -1)); [now left |].
  destruct (String.eqb (goos c) "openbsd").
  - destruct (IsNotExist (err rc)); [right; left; eexists; reflexivity |].
    destruct (Z.of_nat (length (lookup rc)) =? 0); [right; left; eexists; reflexivity |].
    destruct (openbsdLookup_punts (lookup rc)) as [Hfb | [o Ho]].
    + left. intros fb. now rewrite Hfb.
    + right. left. exists o. intros fb. now rewrite Ho.
  - cbv zeta.
    destruct (Str.stringsHasSuffixFold (Conf.canonical hostname) ".local"); [now left |].
    destruct (nssOrder_punts c sys (Conf.canonical hostname)) as [Hfb | [o Ho]].
    + left. intros fb. now rewrite Hfb.
    + right. left. exists o. intros fb. now rewrite Ho.
Qed.

Lemma fallbackOrder_table (c : conf) (r : option Resolver) :
  Conf.fallbackOrder c r = fallbackTable (netGo c || preferGo r) (goos c).
Proof.
  unfold Conf.fallbackOrder, fallbackTable.
  destruct (netGo c || preferGo r); [| reflexivity].
  destruct (String.eqb_spec (goos c) "windows") as [Heq | Hne];
    destruct (decide (goos c = "windows")); congruence.
Qed.

(** ** Step 2: platforms with no native resolver *)

(** C2 (as amended): on windows and on plan9 every call returns the fallback
    of step 1, whatever the host name and the NSS content: NativeOnly unless
    the built-in resolver is selected, and then BuiltinDNS on windows and
    FilesThenDNS on plan9. *)
Theorem no_native_concept_returns_fallback (c : conf) (r : option Resolver)
    (hostname : string) (sys : system) :
  goos c = "windows" \/ goos c = "plan9" ->
  Conf.hostLookupOrder c r hostname sys
  = Returns (fallbackTable (netGo c || preferGo r) (goos c)).
Proof.
  intros Hos. unfold Conf.hostLookupOrder, Conf.rules.
  rewrite fallbackOrder_table.
  destruct Hos as [-> | ->]; reflexivity.
Qed.

Lemma no_native_concept_witness :
  goos Tests.windowsConf = "windows"
  /\ Conf.hostLookupOrder Tests.windowsConf None "google.com"
       (Tests.sysOf Tests.ubuntuTrusty "myhostname")
     = Returns hostLookupCgo.
Proof.
  split; [reflexivity |].
  apply (no_native_concept_returns_fallback Tests.windowsConf None "google.com"
           (Tests.sysOf Tests.ubuntuTrusty "myhostname")).
  left. reflexivity.
Defined.

(** C2 as first stated fails: the windows configuration which [initConfVal]
    builds without an override answers NativeOnly, not BuiltinDNS. *)
Lemma no_native_concept_not_always_dns :
  goos Tests.windowsConf = "windows"
  /\ Conf.hostLookupOrder Tests.windowsConf None "google.com"
       (Tests.sysOf Tests.ubuntuTrusty "myhostname")
     <> Returns hostLookupDNS.
Proof.
  split; [reflexivity |]. vm_compute. discriminate.
Qed.

(** ** Step 5: the platform without NSS *)

Lemma openbsdLookup_table (fb : hostLookupOrder) (rc : dnsConfig) :
  IsNotExist (err rc) = false ->
  lookup rc <> [] ->
  Conf.openbsdLookup fb (lookup rc) = openbsdTable fb rc.
Proof.
  intros Herr Hne. unfold openbsdTable. rewrite Herr.
  destruct (lookup rc) as [| l0 [| l1 [| l2 rest]]]; [congruence | | |].
  - unfold Conf.openbsdLookup. simpl.
    destruct (String.eqb_spec l0 "bind") as [-> | Hb]; [reflexivity |].
    destruct (String.eqb_spec l0 "file") as [-> | Hf]; [reflexivity |].
    repeat (case_decide; [congruence |]). reflexivity.
  - unfold Conf.openbsdLookup. simpl.
    destruct (String.eqb_spec l0 "bind") as [-> | Hb].
    + destruct (String.eqb_spec l1 "file") as [-> | Hf]; [reflexivity |].
      repeat (case_decide; [congruence |]). reflexivity.
    + destruct (String.eqb_spec l0 "file") as [-> | Hf].
      * destruct (String.eqb_spec l1 "bind") as [-> | Hb1]; [reflexivity |].
        repeat (case_decide; [congruence |]). reflexivity.
      * repeat (case_decide; [congruence |]). reflexivity.
  - unfold Conf.openbsdLookup.
    replace ((Z.of_nat (length (l0 :: l1 :: l2 :: rest)) <? 1)
             || (2 <? Z.of_nat (length (l0 :: l1 :: l2 :: rest)))) with true.
    + repeat (case_decide; [congruence |]). reflexivity.
    + symmetry. apply orb_true_iff. right. apply Z.ltb_lt. simpl length. lia.
Qed.

(** C3: on openbsd, once step 5 is reached, the resolver configuration alone
    decides: no file gives FilesOnly, no lookup list gives DNSThenFiles,
    bind gives BuiltinDNS, bind file gives DNSThenFiles, file gives
    FilesOnly, file bind gives FilesThenDNS, and every other list gives the
    fallback. *)
Theorem openbsd_lookup_table (c : conf) (r : option Resolver) (hostname : string)
    (sys : system) (rc : dnsConfig) :
  goos c = "openbsd" ->
  reachesStep5 c hostname = true ->
  resolv c = Some rc ->
  Conf.hostLookupOrder c r hostname sys
  = Returns (openbsdTable (Conf.fallbackOrder c r) rc).
Proof.
  intros Hos Hreach Hrc. unfold Conf.hostLookupOrder.
  rewrite (rules_step5 _ _ _ _ rc) by (try assumption; now rewrite Hos).
  f_equal.
  destruct (IsNotExist (err rc)) eqn:Herr.
  - unfold openbsdTable. now rewrite Herr.
  - destruct (Z.of_nat (length (lookup rc)) =? 0) eqn:Hlen.
    + apply length_zero_nil in Hlen. unfold openbsdTable.
      rewrite Herr, Hlen. reflexivity.
    + apply openbsdLookup_table; [assumption |].
      intros Hnil. apply length_zero_nil in Hnil. congruence.
Qed.

Lemma openbsd_lookup_table_witness :
  Conf.hostLookupOrder Tests.openbsdBindFile None "foo.local"
    (Tests.sysOf Tests.ubuntuTrusty "myhostname")
  = Returns hostLookupDNSFiles.
Proof.
  apply (openbsd_lookup_table Tests.openbsdBindFile None "foo.local"
           (Tests.sysOf Tests.ubuntuTrusty "myhostname")
           {| lookup := ["bind"; "file"]; unknownOpt := false; err := None |});
    reflexivity.
Defined.

(** ** Step 6: the .local names *)

(** C7: a host name which, one trailing dot stripped, ends in .local in any
    letter case gets the fallback whenever the call reaches step 6. *)
Theorem dot_local_returns_fallback (c : conf) (r : option Resolver)
    (hostname : string) (sys : system) :
  reachesStep6 c hostname = true ->
  Str.stringsHasSuffixFold (Conf.canonical hostname) ".local" = true ->
  Conf.hostLookupOrder c r hostname sys = Returns (Conf.fallbackOrder c r).
Proof.
  intros Hreach Hlocal. unfold Conf.hostLookupOrder.
  rewrite rules_step6 by assumption. now rewrite Hlocal.
Qed.

Lemma dot_local_witness :
  Conf.hostLookupOrder Tests.plainConf None "foo.LOCAL."
    (Tests.sysOf Tests.ubuntuTrusty "myhostname")
  = Returns hostLookupCgo.
Proof.
  apply (dot_local_returns_fallback Tests.plainConf None "foo.LOCAL."
           (Tests.sysOf Tests.ubuntuTrusty "myhostname")); reflexivity.
Defined.

(** ** Step 7: no NSS configuration, or none for hosts *)

(** C1 (as amended): when step 7 is reached and the NSS file is absent, or
    was read without error and lists no source for hosts, the result is the
    fallback on solaris and FilesThenDNS on every other platform. *)
Theorem nss_absent_or_empty (c : conf) (r : option Resolver) (hostname : string)
    (sys : system) :
  reachesStep7 c hostname = true ->
  IsNotExist (nss_err (getSystemNSS sys)) = true
  \/ (nss_err (getSystemNSS sys) = None /\ hostsSources (getSystemNSS sys) = []) ->
  Conf.hostLookupOrder c r hostname sys
  = Returns (if decide (goos c = "solaris") then Conf.fallbackOrder c r
             else hostLookupFilesDNS).
Proof.
  intros Hreach Hnss. unfold Conf.hostLookupOrder.
  rewrite rules_step7 by assumption. unfold Conf.nssOrder.
  replace (IsNotExist (nss_err (getSystemNSS sys))
           || negb (notNil (nss_err (getSystemNSS sys)))
              && (Z.of_nat (length (hostsSources (getSystemNSS sys))) =? 0))
    with true.
  - destruct (String.eqb_spec (goos c) "solaris"); case_decide; congruence.
  - symmetry. destruct Hnss as [-> | [-> ->]]; reflexivity.
Qed.

Lemma nss_absent_or_empty_witness :
  Conf.hostLookupOrder Tests.solarisConf None "google.com"
    (Tests.sysOf Tests.nssAbsent "myhostname")
  = Returns hostLookupCgo.
Proof.
  apply (nss_absent_or_empty Tests.solarisConf None "google.com"
           (Tests.sysOf Tests.nssAbsent "myhostname")).
  - reflexivity.
  - left. reflexivity.
Defined.

(** C1 as first stated fails: on linux with no nsswitch.conf the fallback is
    NativeOnly and the result is FilesThenDNS. *)
Lemma nss_absent_linux_not_fallback :
  goos Tests.linuxConf <> "openbsd"
  /\ reachesStep7 Tests.linuxConf "google.com" = true
  /\ IsNotExist (nss_err (getSystemNSS (Tests.sysOf Tests.nssAbsent "myhostname"))) = true
  /\ Conf.hostLookupOrder Tests.linuxConf None "google.com"
       (Tests.sysOf Tests.nssAbsent "myhostname")
     <> Returns (Conf.fallbackOrder Tests.linuxConf None).
Proof.
  repeat split; try reflexivity; vm_compute; discriminate.
Qed.

(** ** Step 8: the scan of the hosts sources *)

Section Scan.

Variable fb : hostLookupOrder.
Variables (sys : system) (hostname : string).

(** What a pass which continues does to the loop variables. *)
Lemma scanSource_vars (v v' : scanVars) (src : nssSource) :
  Conf.scanSource fb sys hostname v src = Continue v' ->
  filesSource v' = filesSource v || named "files" src
  /\ dnsSource v' = dnsSource v || named "dns" src
  /\ first v' = (if String.eqb (first v) "" then
                   if named "files" src || named "dns" src then source src else ""
                 else first v).
Proof.
  unfold Conf.scanSource. rewrite !named_eqb.
  destruct (named "myhostname" src) eqn:Hmy.
  - apply bool_decide_eq_true in Hmy. unfold named. rewrite Hmy.
    change (bool_decide ("myhostname" = "files")) with false.
    change (bool_decide ("myhostname" = "dns")) with false.
    destruct (isLocalhost hostname || isGateway hostname || isOutbound hostname);
      [discriminate |].
    destruct (getHostname sys) as [hn e].
    destruct (notNil e || Str.stringsEqualFold hostname hn); [discriminate |].
    intros [= <-]. simpl. rewrite !orb_false_r.
    now destruct (String.eqb (first v) "") eqn:Hf; [apply String.eqb_eq in Hf |].
  - destruct (named "files" src) eqn:Hfiles.
    + apply bool_decide_eq_true in Hfiles. unfold named. rewrite Hfiles.
      destruct (standardCriteria src); [| discriminate]. simpl.
      intros [= <-]. simpl. rewrite orb_true_r, orb_false_r.
      now destruct (String.eqb (first v) "").
    + destruct (named "dns" src) eqn:Hdns.
      * destruct (standardCriteria src); [| discriminate]. simpl.
        intros [= <-]. simpl. rewrite orb_true_r, orb_false_r.
        now destruct (String.eqb (first v) "").
      * simpl. destruct (Str.stringsHasPrefix (source src) "mdns"); [| discriminate].
        intros [= <-]. simpl. rewrite !orb_false_r.
        now destruct (String.eqb (first v) "") eqn:Hf; [apply String.eqb_eq in Hf |].
Qed.

(** A files or dns source has a name which is not empty. *)
Lemma seen_not_empty (src : nssSource) :
  named "files" src || named "dns" src = true ->
  String.eqb (source src) "" = false.
Proof.
  unfold named. intros Hn. apply orb_true_iff in Hn.
  destruct Hn as [Hn | Hn]; apply bool_decide_eq_true in Hn; now rewrite Hn.
Qed.

(** What a loop which runs to its end does to the loop variables. *)
Lemma scanSources_vars (srcs : list nssSource) :
  forall v v',
    Conf.scanSources fb sys hostname srcs v = Continue v' ->
    filesSource v' = filesSource v || present "files" srcs
    /\ dnsSource v' = dnsSource v || present "dns" srcs
    /\ first v' = (if String.eqb (first v) "" then firstSeen srcs else first v).
Proof.
  induction srcs as [| src srcs IH]; intros v v'; simpl.
  - intros [= <-]. rewrite !orb_false_r. unfold firstSeen. simpl.
    now destruct (String.eqb (first v) "") eqn:Hf; [apply String.eqb_eq in Hf |].
  - destruct (Conf.scanSource fb sys hostname v src) as [v1 | o] eqn:Hsrc;
      [| discriminate].
    intros Hrest. apply scanSource_vars in Hsrc. destruct Hsrc as (Hf1 & Hd1 & Hfirst1).
    apply IH in Hrest. destruct Hrest as (Hf & Hd & Hfirst).
    rewrite Hf, Hd, Hfirst, Hf1, Hd1, Hfirst1, !orb_assoc.
    split; [reflexivity |]. split; [reflexivity |].
    unfold firstSeen. simpl.
    destruct (String.eqb (first v) "") eqn:Hv; [| now rewrite Hv].
    destruct (named "files" src || named "dns" src) eqn:Hseen.
    + now rewrite (seen_not_empty _ Hseen).
    + reflexivity.
Qed.

(** A source on which every pass returns makes the whole loop return: the
    passes before it continue or return the same value. *)
Lemma scanSources_returning (P : nssSource -> bool) :
  (forall src v, P src = true -> Conf.scanSource fb sys hostname v src = Return fb) ->
  forall srcs v,
    existsb P srcs = true ->
    Conf.scanSources fb sys hostname srcs v = Return fb.
Proof.
  intros HP. induction srcs as [| src srcs IH]; intros v; simpl; [discriminate |].
  intros Hex. destruct (scanSource_punts sys hostname v src) as [Hret | [v1 Hcont]].
  - now rewrite Hret.
  - rewrite Hcont. destruct (P src) eqn:Hsrc.
    + specialize (HP src v Hsrc). rewrite Hcont in HP. discriminate.
    + apply IH. exact Hex.
Qed.

Lemma scanSource_myhostname_punts (v : scanVars) (src : nssSource) :
  myhostnamePunts hostname (getHostname sys) = true ->
  named "myhostname" src = true ->
  Conf.scanSource fb sys hostname v src = Return fb.
Proof.
  unfold myhostnamePunts, Conf.scanSource. intros Hp Hmy.
  rewrite named_eqb, Hmy.
  destruct (isLocalhost hostname || isGateway hostname || isOutbound hostname);
    [reflexivity |].
  destruct (getHostname sys) as [hn e]. simpl in Hp. now rewrite Hp.
Qed.

Lemma scanSource_myhostname_skips (v : scanVars) (src : nssSource) :
  myhostnamePunts hostname (getHostname sys) = false ->
  named "myhostname" src = true ->
  Conf.scanSource fb sys hostname v src = Continue v.
Proof.
  unfold myhostnamePunts, Conf.scanSource. intros Hp Hmy.
  rewrite named_eqb, Hmy.
  destruct (getHostname sys) as [hn e]. simpl in Hp.
  apply orb_false_iff in Hp. destruct Hp as [Hp He].
  apply orb_false_iff in Hp. destruct Hp as [Hp Hn].
  now rewrite Hp, Hn, He.
Qed.

(** A myhostname source which does not punt leaves no trace in the scan. *)
Lemma scanSources_skip_myhostname (srcs : list nssSource) :
  myhostnamePunts hostname (getHostname sys) = false ->
  forall v,
    Conf.scanSources fb sys hostname srcs v
    = Conf.scanSources fb sys hostname (withoutMyhostname srcs) v.
Proof.
  intros Hp. induction srcs as [| src srcs IH]; intros v; simpl; [reflexivity |].
  destruct (named "myhostname" src) eqn:Hmy; simpl.
  - rewrite scanSource_myhostname_skips by assumption. apply IH.
  - destruct (Conf.scanSource fb sys hostname v src); [apply IH | reflexivity].
Qed.

End Scan.

(** ** Step 10: the final classification *)

Lemma classify_table (fb : hostLookupOrder) (c : conf) (sys : system)
    (hostname : string) (srcs : list nssSource) (v : scanVars) :
  Conf.scanSources fb sys hostname srcs scanInit = Continue v ->
  mdnsSource v && hasMDNSAllow c = false ->
  Conf.classify fb c v = finalTable fb srcs.
Proof.
  intros Hscan Hmdns. apply scanSources_vars in Hscan.
  destruct Hscan as (Hf & Hd & Hfirst). simpl in Hf, Hd, Hfirst.
  unfold Conf.classify, finalTable. rewrite Hmdns, Hf, Hd, Hfirst.
  destruct (present "files" srcs) eqn:Hpf, (present "dns" srcs) eqn:Hpd;
    try reflexivity.
  simpl. unfold firstSeen, filesAppearedFirst.
  destruct (List.find (fun src => named "files" src || named "dns" src) srcs)
    as [src |] eqn:Hfind.
  - now rewrite named_eqb.
  - reflexivity.
Qed.

(** C5: when the scan of the hosts sources runs to its end and the mDNS
    allow-list rule does not fire, the result is FilesThenDNS or
    DNSThenFiles when a files and a dns source are both listed, after
    whichever of the two comes first, FilesOnly when only files is listed,
    BuiltinDNS when only dns is, and the fallback when neither is. *)
Theorem final_classification (c : conf) (r : option Resolver) (hostname : string)
    (sys : system) (v : scanVars) :
  reachesStep8 c hostname sys = true ->
  Conf.scanSources (Conf.fallbackOrder c r) sys (Conf.canonical hostname)
    (hostsSources (getSystemNSS sys)) scanInit = Continue v ->
  mdnsSource v && hasMDNSAllow c = false ->
  Conf.hostLookupOrder c r hostname sys
  = Returns (finalTable (Conf.fallbackOrder c r) (hostsSources (getSystemNSS sys))).
Proof.
  intros Hreach Hscan Hmdns. unfold Conf.hostLookupOrder.
  rewrite rules_step8 by assumption. rewrite Hscan. f_equal.
  now apply (classify_table _ c sys (Conf.canonical hostname)).
Qed.

Lemma final_classification_witness :
  Conf.hostLookupOrder Tests.plainConf None "google.com"
    (Tests.sysOf Tests.ubuntuTrusty "myhostname")
  = Returns (finalTable hostLookupCgo
               [Tests.std "files"; Tests.std "mdns4_minimal"; Tests.std "dns";
                Tests.std "mdns4"]).
Proof.
  apply (final_classification Tests.plainConf None "google.com"
           (Tests.sysOf Tests.ubuntuTrusty "myhostname") Tests.ubuntuTrustyVars);
    vm_compute; reflexivity.
Defined.

(** ** No call fails *)

(** [initConfVal] leaves [resolv] nil only where it is never read. *)
Lemma initConfVal_resolvReadable (b : bootInputs) :
  resolvReadable (initConfVal b) = true.
Proof.
  unfold initConfVal. cbv zeta.
  destruct (String.eqb (runtime_GOOS b) "darwin" || String.eqb (runtime_GOOS b) "ios").
  { unfold resolvReadable. simpl. now rewrite orb_true_r. }
  destruct (String.eqb (runtime_GOOS b) "windows" || String.eqb (runtime_GOOS b) "plan9")
    eqn:Hwin.
  { unfold resolvReadable. simpl. now rewrite Hwin. }
  match goal with
  | |- context [if ?b then _ else _] => destruct b
  end.
  { unfold resolvReadable. simpl. now rewrite orb_true_r. }
  match goal with
  | |- context [if ?b then _ else _] => destruct b
  end.
  { unfold resolvReadable. simpl. now rewrite orb_true_r. }
  unfold resolvReadable. simpl. now rewrite orb_true_r.
Qed.

Lemma rules_total (fb : hostLookupOrder) (c : conf) (hostname : string) (sys : system) :
  resolvReadable c = true ->
  exists o, Conf.rules fb c hostname sys = Returns o.
Proof.
  unfold resolvReadable, Conf.rules. intros Hr.
  destruct (String.eqb (goos c) "windows" || String.eqb (goos c) "plan9");
    [eexists; reflexivity |].
  destruct (forceCgoLookupHost c); [eexists; reflexivity |].
  destruct (resolv c) as [rc |]; [| discriminate].
  repeat match goal with
  | |- context [if ?b then _ else _] => destruct b
  end; eexists; reflexivity.
Qed.

(** Off openbsd a call punts or goes by the NSS configuration. *)
Lemma rules_not_openbsd (fb : hostLookupOrder) (c : conf) (hostname : string)
    (sys : system) :
  resolvReadable c = true ->
  goos c <> "openbsd" ->
  Conf.rules fb c hostname sys = Returns fb
  \/ Conf.rules fb c hostname sys
     = Returns (Conf.nssOrder fb c (Conf.canonical hostname) sys).
Proof.
  unfold resolvReadable, Conf.rules. intros Hr Hos.
  destruct (String.eqb (goos c) "windows" || String.eqb (goos c) "plan9"); [now left |].
  destruct (forceCgoLookupHost c); [now left |].
  destruct (resolv c) as [rc |]; [| discriminate].
  destruct (unknownOpt rc || String.eqb (goos c) "android"); [now left |].
  destruct (negb (Str.IndexByteString hostname "\" =? -1)
            || negb (Str.IndexByteString hostname "%" =? -1)); [now left |].
  destruct (String.eqb_spec (goos c) "openbsd") as [Heq | _]; [contradiction |].
  cbv zeta.
  destruct (Str.stringsHasSuffixFold (Conf.canonical hostname) ".local");
    [now left | now right].
Qed.

Lemma rules_unknownOpt (fb : hostLookupOrder) (c : conf) (hostname : string)
    (sys : system) (rc : dnsConfig) :
  resolv c = Some rc ->
  unknownOpt rc = true ->
  Conf.rules fb c hostname sys = Returns fb.
Proof.
  unfold Conf.rules. intros -> ->.
  destruct (String.eqb (goos c) "windows" || String.eqb (goos c) "plan9");
    [reflexivity |].
  now destruct (forceCgoLookupHost c).
Qed.

Lemma nssOrder_parse_failure (fb : hostLookupOrder) (c : conf) (hostname : string)
    (sys : system) :
  notNil (nss_err (getSystemNSS sys)) = true ->
  IsNotExist (nss_err (getSystemNSS sys)) = false ->
  Conf.nssOrder fb c hostname sys = fb.
Proof.
  unfold Conf.nssOrder. intros -> ->. reflexivity.
Qed.

Lemma nssOrder_returning (fb : hostLookupOrder) (c : conf) (hostname : string)
    (sys : system) (P : nssSource -> bool) :
  (forall src v, P src = true -> Conf.scanSource fb sys hostname v src = Return fb) ->
  nss_err (getSystemNSS sys) = None ->
  existsb P (hostsSources (getSystemNSS sys)) = true ->
  Conf.nssOrder fb c hostname sys = fb.
Proof.
  intros HP Herr Hex. unfold Conf.nssOrder. rewrite Herr. simpl.
  destruct (hostsSources (getSystemNSS sys)) as [| src srcs] eqn:Hsrcs;
    [discriminate |].
  replace (Z.of_nat (length (src :: srcs)) =? 0) with false
    by (symmetry; apply Z.eqb_neq; simpl length; lia).
  now rewrite (scanSources_returning fb sys hostname P HP).
Qed.

Lemma scanSource_unknown (fb : hostLookupOrder) (sys : system) (hostname : string)
    (src : nssSource) (v : scanVars) :
  unknownSource src = true ->
  Conf.scanSource fb sys hostname v src = Return fb.
Proof.
  unfold unknownSource, Conf.scanSource. intros Hu. bool_hyps.
  rewrite !named_eqb. now bool_rewrite.
Qed.

Lemma scanSource_nonStandard (fb : hostLookupOrder) (sys : system) (hostname : string)
    (src : nssSource) (v : scanVars) :
  nonStandard src = true ->
  Conf.scanSource fb sys hostname v src = Return fb.
Proof.
  unfold nonStandard, Conf.scanSource. intros Hn. bool_hyps.
  rewrite !named_eqb. bool_rewrite.
  destruct (named "myhostname" src) eqn:Hmy; [| reflexivity].
  apply bool_decide_eq_true in Hmy. unfold named in H. rewrite Hmy in H.
  discriminate.
Qed.

Lemma scanSource_hostname_failure (fb : hostLookupOrder) (sys : system)
    (hostname : string) (src : nssSource) (v : scanVars) :
  notNil (snd (getHostname sys)) = true ->
  named "myhostname" src = true ->
  Conf.scanSource fb sys hostname v src = Return fb.
Proof.
  intros Hfail. apply scanSource_myhostname_punts.
  unfold myhostnamePunts. rewrite Hfail. now rewrite orb_true_r.
Qed.

(** C8: no call fails.  A call on a configuration whose [resolv] is there
    whenever it is read (as in every configuration [initConfVal] builds)
    returns one of the five orders, and what cannot be classified gets the
    fallback: an unrecognized resolv.conf directive, and, where NSS is
    consulted, an NSS file which cannot be parsed, a source of unknown name,
    a files or dns source with other than the default criteria, a failing
    lookup of the machine host name. *)
Theorem never_fails (c : conf) (r : option Resolver) (hostname : string)
    (sys : system) :
  resolvReadable c = true ->
  (exists o, Conf.hostLookupOrder c r hostname sys = Returns o)
  /\ (forall rc, resolv c = Some rc -> unknownOpt rc = true ->
      Conf.hostLookupOrder c r hostname sys = Returns (Conf.fallbackOrder c r))
  /\ (goos c <> "openbsd" ->
      (notNil (nss_err (getSystemNSS sys)) = true ->
       IsNotExist (nss_err (getSystemNSS sys)) = false ->
       Conf.hostLookupOrder c r hostname sys = Returns (Conf.fallbackOrder c r))
      /\ (nss_err (getSystemNSS sys) = None ->
          existsb unknownSource (hostsSources (getSystemNSS sys)) = true ->
          Conf.hostLookupOrder c r hostname sys = Returns (Conf.fallbackOrder c r))
      /\ (nss_err (getSystemNSS sys) = None ->
          existsb nonStandard (hostsSources (getSystemNSS sys)) = true ->
          Conf.hostLookupOrder c r hostname sys = Returns (Conf.fallbackOrder c r))
      /\ (nss_err (getSystemNSS sys) = None ->
          present "myhostname" (hostsSources (getSystemNSS sys)) = true ->
          notNil (snd (getHostname sys)) = true ->
          Conf.hostLookupOrder c r hostname sys = Returns (Conf.fallbackOrder c r))).
Proof.
  intros Hr. unfold Conf.hostLookupOrder.
  split; [now apply rules_total |].
  split; [intros rc; apply rules_unknownOpt |].
  intros Hos.
  destruct (rules_not_openbsd (Conf.fallbackOrder c r) c hostname sys Hr Hos)
    as [-> | ->]; [now repeat split |].
  repeat split.
  - intros Hnil Hne. f_equal. now apply nssOrder_parse_failure.
  - intros Herr Hex. f_equal.
    apply (nssOrder_returning _ _ _ _ unknownSource); try assumption.
    intros src v. apply scanSource_unknown.
  - intros Herr Hex. f_equal.
    apply (nssOrder_returning _ _ _ _ nonStandard); try assumption.
    intros src v. apply scanSource_nonStandard.
  - intros Herr Hex Hfail. f_equal.
    apply (nssOrder_returning _ _ _ _ (named "myhostname")); try assumption.
    intros src v. now apply scanSource_hostname_failure.
Qed.

Lemma never_fails_witness :
  Conf.hostLookupOrder Tests.plainConf None "x.com"
    (Tests.sysOf Tests.somethingCustom "myhostname")
  = Returns hostLookupCgo
  /\ Conf.hostLookupOrder Tests.plainConf None "x.com"
       (Tests.sysOf Tests.nssUnreadable "myhostname")
     = Returns hostLookupCgo.
Proof.
  split.
  - apply (proj1 (proj2 (proj2 (proj2
             (never_fails Tests.plainConf None "x.com"
                (Tests.sysOf Tests.somethingCustom "myhostname") eq_refl))
             ltac:(vm_compute; discriminate)))); vm_compute; reflexivity.
  - apply (proj1 (proj2 (proj2
             (never_fails Tests.plainConf None "x.com"
                (Tests.sysOf Tests.nssUnreadable "myhostname") eq_refl))
             ltac:(vm_compute; discriminate))); vm_compute; reflexivity.
Defined.

(** ** The empty host name *)

Lemma empty_name_not_machine (machine : string) :
  machine <> "" ->
  myhostnamePunts "" (machine, None) = false.
Proof.
  intros Hne. unfold myhostnamePunts. simpl snd. simpl fst.
  change (isLocalhost "" || isGateway "" || isOutbound "" || notNil None) with false.
  simpl. unfold Str.stringsEqualFold.
  destruct machine as [| a machine]; [congruence |]. reflexivity.
Qed.

(** C9 (as amended): when step 6 is reached with the empty host name, the
    NSS sources for hosts are files, dns and myhostname with the default
    criteria, and the machine host name is fetched and not empty, the
    myhostname source does not punt and the result is FilesThenDNS. *)
Theorem empty_hostname_files_dns (c : conf) (r : option Resolver) (sys : system)
    (machine : string) :
  reachesStep6 c "" = true ->
  nss_err (getSystemNSS sys) = None ->
  hostsSources (getSystemNSS sys)
  = [standardSource "files"; standardSource "dns"; standardSource "myhostname"] ->
  getHostname sys = (machine, None) ->
  machine <> "" ->
  myhostnamePunts "" (getHostname sys) = false
  /\ Conf.hostLookupOrder c r "" sys = Returns hostLookupFilesDNS.
Proof.
  intros Hreach Herr Hsrcs Hhn Hne.
  assert (Hp : myhostnamePunts "" (getHostname sys) = false)
    by (rewrite Hhn; now apply empty_name_not_machine).
  split; [exact Hp |].
  assert (Hreach8 : reachesStep8 c "" sys = true).
  { unfold reachesStep8, reachesStep7. rewrite Hreach, Herr, Hsrcs. reflexivity. }
  unfold Conf.hostLookupOrder. rewrite rules_step8 by assumption.
  change (Conf.canonical "") with "".
  rewrite scanSources_skip_myhostname by assumption.
  rewrite Hsrcs. reflexivity.
Qed.

Lemma empty_hostname_witness :
  Conf.hostLookupOrder Tests.plainConf None ""
    (Tests.sysOf Tests.filesDnsMyhostname "myhostname")
  = Returns hostLookupFilesDNS.
Proof.
  apply (empty_hostname_files_dns Tests.plainConf None
           (Tests.sysOf Tests.filesDnsMyhostname "myhostname") "myhostname");
    vm_compute; solve [reflexivity | discriminate].
Defined.

(** C9 as first stated fails: a linux machine started with RES_OPTIONS set
    has native resolution forced, and the empty host name gets NativeOnly
    with the same NSS sources. *)
Lemma empty_hostname_forced_native :
  nss_err Tests.filesDnsMyhostname = None
  /\ hostsSources Tests.filesDnsMyhostname
     = [standardSource "files"; standardSource "dns"; standardSource "myhostname"]
  /\ getHostname (Tests.sysOf Tests.filesDnsMyhostname "myhostname")
     = ("myhostname", None)
  /\ Conf.hostLookupOrder Tests.linuxResOptionsConf None ""
       (Tests.sysOf Tests.filesDnsMyhostname "myhostname")
     <> Returns hostLookupFilesDNS.
Proof.
  repeat split; try (vm_compute; reflexivity). vm_compute. discriminate.
Qed.

(** ** errors.Join *)

Section JoinFacts.

Context {E : Type} `{Errors.Error E}.

Lemma countNonNil_length (args : list (option E)) :
  forall n, Errors.countNonNil args n = n + Z.of_nat (length (nonNil args)).
Proof.
  induction args as [| [e |] args IH]; intros n; simpl.
  - lia.
  - rewrite IH. lia.
  - apply IH.
Qed.

Lemma appendNonNil_nonNil (args : list (option E)) :
  forall acc, Errors.appendNonNil args acc = (acc ++ nonNil args)%list.
Proof.
  induction args as [| [e |] args IH]; intros acc; simpl.
  - now rewrite app_nil_r.
  - rewrite IH. now rewrite <- app_assoc.
  - apply IH.
Qed.

Lemma nonNil_nil_all_nil (args : list (option E)) :
  nonNil args = [] <-> Forall (fun a => a = None) args.
Proof.
  induction args as [| [e |] args IH]; simpl.
  - split; [constructor | reflexivity].
  - split; [discriminate |]. intros Hall. inversion Hall. discriminate.
  - rewrite IH. split; [now constructor |]. intros Hall. now inversion Hall.
Qed.

Lemma append_assoc (s1 s2 s3 : string) :
  String.append (String.append s1 s2) s3 = String.append s1 (String.append s2 s3).
Proof.
  induction s1 as [| a s1 IH]; [reflexivity |].
  change (String a (String.append (String.append s1 s2) s3)
          = String a (String.append s1 (String.append s2 s3))).
  now rewrite IH.
Qed.

Lemma append_empty_r (s : string) : String.append s "" = s.
Proof.
  induction s as [| a s IH]; [reflexivity |].
  change (String a (String.append s "") = String a s). now rewrite IH.
Qed.

Lemma errorLoop_newlineEach (es : list E) :
  forall i b, 0 < i -> Errors.errorLoop i es b = String.append b (newlineEach es).
Proof.
  induction es as [| e es IH]; intros i b Hi; simpl.
  - now rewrite append_empty_r.
  - replace (0 <? i) with true by (symmetry; now apply Z.ltb_lt).
    rewrite IH by lia. now rewrite !append_assoc.
Qed.

Lemma newlineEach_concat (es : list E) :
  forall x,
    String.append x (newlineEach es)
    = String.concat Errors.newline (x :: map Errors.error_string es).
Proof.
  induction es as [| e es IH]; intros x.
  - simpl. apply append_empty_r.
  - change (String.append x
              (String.append Errors.newline
                 (String.append (Errors.error_string e) (newlineEach es)))
            = String.append x
                (String.append Errors.newline
                   (String.concat Errors.newline
                      (Errors.error_string e :: map Errors.error_string es)))).
    now rewrite IH.
Qed.

Lemma joinError_Error_concat (e : Errors.joinError E) :
  Errors.joinError_Error e
  = String.concat Errors.newline (map Errors.error_string (Errors.errs e)).
Proof.
  unfold Errors.joinError_Error. destruct (Errors.errs e) as [| e0 es]; [reflexivity |].
  simpl Errors.errorLoop. rewrite errorLoop_newlineEach by lia.
  apply newlineEach_concat.
Qed.

End JoinFacts.

(** C10: [Join] returns nil exactly when every argument is nil; otherwise it
    returns an error whose [Unwrap] gives the non-nil arguments in their
    order and whose [Error] text is their texts with one newline between
    each two. *)
Theorem join_spec {E : Type} `{Errors.Error E} (args : list (option E)) :
  (Errors.Join args = None <-> Forall (fun a => a = None) args)
  /\ match Errors.Join args with
     | None => True
     | Some e =>
         Errors.Unwrap e = nonNil args
         /\ Errors.joinError_Error e
            = String.concat Errors.newline (map Errors.error_string (nonNil args))
     end.
Proof.
  unfold Errors.Join. rewrite countNonNil_length, appendNonNil_nonNil. simpl.
  rewrite <- nonNil_nil_all_nil.
  destruct (nonNil args) as [| e es] eqn:Hargs.
  - simpl. split; [split; reflexivity | exact I].
  - replace (Z.of_nat (length (e :: es)) =? 0) with false
      by (symmetry; apply Z.eqb_neq; simpl length; lia).
    split; [split; discriminate |].
    split; [reflexivity | apply joinError_Error_concat].
Qed.

(** ** The orders of the built-in resolver *)

(** A result which is one of the four built-in orders whatever the fallback. *)
Ltac constant_order :=
  eexists; split; [| intros ?; reflexivity]; reflexivity.

Ltac builtin_order := right; constant_order.

Lemma openbsdLookup_builtin (l : list string) :
  (forall fb, Conf.openbsdLookup fb l = fb)
  \/ (exists o, isCgo o = false /\ forall fb, Conf.openbsdLookup fb l = o).
Proof.
  unfold Conf.openbsdLookup.
  destruct ((Z.of_nat (length l) <? 1) || (2 <? Z.of_nat (length l))); [now left |].
  destruct l as [| l0 rest]; [now left |].
  destruct (String.eqb l0 "bind").
  - destruct (Z.of_nat (length (l0 :: rest)) =? 2); [| builtin_order].
    destruct rest as [| l1 rest]; [now left |].
    destruct (String.eqb l1 "file"); [builtin_order | now left].
  - destruct (String.eqb l0 "file"); [| now left].
    destruct (Z.of_nat (length (l0 :: rest)) =? 2); [| builtin_order].
    destruct rest as [| l1 rest]; [now left |].
    destruct (String.eqb l1 "bind"); [builtin_order | now left].
Qed.

Lemma classify_builtin (c : conf) (v : scanVars) :
  (forall fb, Conf.classify fb c v = fb)
  \/ (exists o, isCgo o = false /\ forall fb, Conf.classify fb c v = o).
Proof.
  unfold Conf.classify.
  destruct (mdnsSource v && hasMDNSAllow c); [now left |].
  destruct (filesSource v && dnsSource v).
  - destruct (String.eqb (first v) "files"); builtin_order.
  - destruct (filesSource v); [builtin_order |].
    destruct (dnsSource v); [builtin_order | now left].
Qed.

Lemma nssOrder_builtin (c : conf) (sys : system) (hostname : string) :
  (forall fb, Conf.nssOrder fb c hostname sys = fb)
  \/ (exists o, isCgo o = false /\ forall fb, Conf.nssOrder fb c hostname sys = o).
Proof.
  unfold Conf.nssOrder.
  destruct (IsNotExist (nss_err (getSystemNSS sys))
            || negb (notNil (nss_err (getSystemNSS sys)))
               && (Z.of_nat (length (hostsSources (getSystemNSS sys))) =? 0)).
  - destruct (String.eqb (goos c) "solaris"); [now left | builtin_order].
  - destruct (notNil (nss_err (getSystemNSS sys))); [now left |].
    destruct (scanSources_punts sys hostname (hostsSources (getSystemNSS sys)) scanInit)
      as [Hret | [v Hcont]].
    + left. intros fb. now rewrite Hret.
    + destruct (classify_builtin c v) as [Hfb | (o & Ho & Hv)].
      * left. intros fb. now rewrite Hcont.
      * right. exists o. split; [exact Ho |]. intros fb. now rewrite Hcont.
Qed.

(** A call punts, or answers with a built-in order, or reads a nil [resolv]. *)
Lemma rules_builtin (c : conf) (hostname : string) (sys : system) :
  (forall fb, Conf.rules fb c hostname sys = Returns fb)
  \/ (exists o, isCgo o = false /\ forall fb, Conf.rules fb c hostname sys = Returns o)
  \/ (forall fb, Conf.rules fb c hostname sys = NilDereference).
Proof.
  unfold Conf.rules.
  destruct (String.eqb (goos c) "windows" || String.eqb (goos c) "plan9"); [now left |].
  destruct (forceCgoLookupHost c); [now left |].
  destruct (resolv c) as [rc |]; [| now right; right].
  destruct (unknownOpt rc || String.eqb (goos c) "android"); [now left |].
  destruct (negb (Str.IndexByteString hostname "\" =? -1)
            || negb (Str.IndexByteString hostname "%" =? -1)); [now left |].
  destruct (String.eqb (goos c) "openbsd").
  - destruct (IsNotExist (err rc)); [right; left; constant_order |].
    destruct (Z.of_nat (length (lookup rc)) =? 0); [right; left; constant_order |].
    destruct (openbsdLookup_builtin (lookup rc)) as [Hfb | (o & Ho & Hl)].
    + left. intros fb. now rewrite Hfb.
    + right. left. exists o. split; [exact Ho |]. intros fb. now rewrite Hl.
  - cbv zeta.
    destruct (Str.stringsHasSuffixFold (Conf.canonical hostname) ".local"); [now left |].
    destruct (nssOrder_builtin c sys (Conf.canonical hostname)) as [Hfb | (o & Ho & Hn)].
    + left. intros fb. now rewrite Hfb.
    + right. left. exists o. split; [exact Ho |]. intros fb. now rewrite Hn.
Qed.

Lemma fallbackOrder_builtin (c : conf) (r : option Resolver) :
  isCgo (Conf.fallbackOrder c r) = negb (netGo c || preferGo r).
Proof.
  unfold Conf.fallbackOrder. destruct (netGo c || preferGo r); [| reflexivity].
  now destruct (String.eqb (goos c) "windows").
Qed.

Lemma selected_go_not_cgo (c : conf) (r : option Resolver) (hostname : string)
    (sys : system) :
  netGo c || preferGo r = true ->
  Conf.hostLookupOrder c r hostname sys <> Returns hostLookupCgo.
Proof.
  intros Hgo. unfold Conf.hostLookupOrder.
  assert (Hfb : isCgo (Conf.fallbackOrder c r) = false)
    by (rewrite fallbackOrder_builtin, Hgo; reflexivity).
  destruct (rules_builtin c hostname sys) as [Hp | [(o & Ho & Hc) | Hn]].
  - rewrite Hp. intros [= Heq]. rewrite Heq in Hfb. discriminate.
  - rewrite Hc. intros [= Heq]. rewrite Heq in Ho. discriminate.
  - rewrite Hn. discriminate.
Qed.

(** X1: once the Go resolver is selected, by [netGo] or by [PreferGo], no
    call answers [hostLookupCgo], whatever the configuration, the host name
    and the system. *)
Theorem go_resolver_never_cgo (c : conf) (r : option Resolver) (hostname : string)
    (sys : system) :
  netGo c || preferGo r = true ->
  Conf.hostLookupOrder c r hostname sys <> Returns hostLookupCgo.
Proof.
  intros Hgo Hcall.
  destruct (rules_builtin c hostname sys) as [Hp | [(o & Ho & Hc) | Hn]];
    unfold Conf.hostLookupOrder in Hcall.
  - rewrite Hp in Hcall. injection Hcall as Hfb.
    pose proof (fallbackOrder_builtin c r) as Hb. rewrite Hfb, Hgo in Hb. discriminate.
  - rewrite Hc in Hcall. injection Hcall as ->. discriminate.
  - rewrite Hn in Hcall. discriminate.
Qed.

Lemma go_resolver_never_cgo_witness :
  Conf.hostLookupOrder (initConfVal Cases.netdnsGoBoot) None "printer.local"
    (Tests.sysOf Tests.ubuntuTrusty "myhostname")
  <> Returns hostLookupCgo.
Proof.
  apply (go_resolver_never_cgo (initConfVal Cases.netdnsGoBoot) None "printer.local"
           (Tests.sysOf Tests.ubuntuTrusty "myhostname")).
  reflexivity.
Defined.

(** X2: with [netGo] unset, [PreferGo] changes exactly the calls which the
    nil resolver sends to cgo: those get BuiltinDNS on windows and
    FilesThenDNS elsewhere, and every other call keeps its order. *)
Theorem preferGo_changes_only_cgo (c : conf) (hostname : string) (sys : system) :
  netGo c = false ->
  Conf.hostLookupOrder c (Some {| PreferGo := true |}) hostname sys
  = match Conf.hostLookupOrder c None hostname sys with
    | Returns hostLookupCgo =>
        Returns (if decide (goos c = "windows") then hostLookupDNS
                 else hostLookupFilesDNS)
    | other => other
    end.
Proof.
  intros Hgo. unfold Conf.hostLookupOrder.
  destruct (rules_builtin c hostname sys) as [Hp | [(o & Ho & Hc) | Hn]].
  - rewrite !Hp. unfold Conf.fallbackOrder. rewrite Hgo. simpl.
    destruct (String.eqb_spec (goos c) "windows"); case_decide; congruence.
  - rewrite !Hc. now destruct o.
  - now rewrite !Hn.
Qed.

Lemma preferGo_changes_only_cgo_witness :
  Conf.hostLookupOrder Tests.plainConf (Some {| PreferGo := true |}) "x.local"
    (Tests.sysOf Cases.filesDns "myhostname")
  = Returns hostLookupFilesDNS.
Proof.
  refine (eq_trans
            (preferGo_changes_only_cgo Tests.plainConf "x.local"
               (Tests.sysOf Cases.filesDns "myhostname") eq_refl) _).
  vm_compute. reflexivity.
Defined.

(** ** What [initConfVal] decides for every later call *)

Lemma rules_answersEarly (fb : hostLookupOrder) (c : conf) (hostname : string)
    (sys : system) :
  answersEarly c = true ->
  Conf.rules fb c hostname sys = Returns fb.
Proof.
  unfold answersEarly, Conf.rules. intros Hearly.
  destruct (String.eqb (goos c) "windows" || String.eqb (goos c) "plan9");
    [reflexivity |].
  simpl in Hearly. now rewrite Hearly.
Qed.

(** The branches of [initConfVal], one after the other. *)
Ltac init_branches b :=
  unfold initConfVal; cbv zeta;
  destruct (String.eqb (runtime_GOOS b) "darwin" || String.eqb (runtime_GOOS b) "ios")
    eqn:Hdarwin;
  [| destruct (String.eqb (runtime_GOOS b) "windows"
               || String.eqb (runtime_GOOS b) "plan9") eqn:Hwin;
     [| rewrite ?andb_false_r;
        destruct (negb (String.eqb (env_RES_OPTIONS b) "")
                  || negb (String.eqb (env_HOSTALIASES b) "")
                  || (build_netCgo b || String.eqb (debug_dnsMode b) "cgo")
                  || env_LOCALDOMAIN_defined b) eqn:Henv;
        [| destruct (String.eqb (runtime_GOOS b) "openbsd"
                     && negb (String.eqb (env_ASR_CONFIG b) "")) eqn:Hasr]]].

Lemma initConfVal_answersEarly (b : bootInputs) :
  answersEarly (initConfVal b) = earlyCause b.
Proof.
  unfold earlyCause, askedCgo, unreadable, answersEarly.
  init_branches b; simpl; rewrite ?Hwin, ?orb_true_r; reflexivity.
Qed.

Lemma initConfVal_netGo (b : bootInputs) :
  netGo (initConfVal b) = build_netGo b || String.eqb (debug_dnsMode b) "go".
Proof. init_branches b; reflexivity. Qed.

Lemma initConfVal_goos (b : bootInputs) : goos (initConfVal b) = runtime_GOOS b.
Proof. init_branches b; reflexivity. Qed.

(** X3: a configuration built by [initConfVal] never has a call read a nil
    [resolv]: every call returns an order, whatever the platform, the
    environment, the resolver, the host name and the system. *)
Theorem initConfVal_calls_return (b : bootInputs) (r : option Resolver)
    (hostname : string) (sys : system) :
  exists o, Conf.hostLookupOrder (initConfVal b) r hostname sys = Returns o.
Proof.
  unfold Conf.hostLookupOrder. apply rules_total. apply initConfVal_resolvReadable.
Qed.

(** X4: when RES_OPTIONS or HOSTALIASES is set, LOCALDOMAIN is defined, or
    the non-go mode is asked for by the build or by GODEBUG, every call on
    the configuration built returns the fallback, on every platform. *)
Theorem environment_forces_fallback (b : bootInputs) (r : option Resolver)
    (hostname : string) (sys : system) :
  env_RES_OPTIONS b <> "" \/ env_HOSTALIASES b <> ""
  \/ env_LOCALDOMAIN_defined b = true
  \/ build_netCgo b = true \/ debug_dnsMode b = "cgo" ->
  Conf.hostLookupOrder (initConfVal b) r hostname sys
  = Returns (Conf.fallbackOrder (initConfVal b) r).
Proof.
  intros Hcause. unfold Conf.hostLookupOrder. apply rules_answersEarly.
  rewrite initConfVal_answersEarly. unfold earlyCause, askedCgo.
  assert (Henv : negb (String.eqb (env_RES_OPTIONS b) "")
                 || negb (String.eqb (env_HOSTALIASES b) "")
                 || (build_netCgo b || String.eqb (debug_dnsMode b) "cgo")
                 || env_LOCALDOMAIN_defined b = true).
  { destruct Hcause as [Hc | [Hc | [Hc | [Hc | Hc]]]].
    - apply String.eqb_neq in Hc. rewrite Hc. reflexivity.
    - apply String.eqb_neq in Hc. rewrite Hc. simpl. now rewrite orb_true_r.
    - rewrite Hc. now rewrite orb_true_r.
    - rewrite Hc. simpl. now rewrite orb_true_r.
    - rewrite Hc. simpl. now rewrite !orb_true_r. }
  rewrite Henv. simpl. now rewrite orb_true_r.
Qed.

Lemma environment_forces_fallback_witness :
  Conf.hostLookupOrder (initConfVal Cases.hostAliasesBoot) None "google.com"
    (Tests.sysOf Cases.filesDns "myhostname")
  = Returns hostLookupCgo.
Proof.
  apply (environment_forces_fallback Cases.hostAliasesBoot None "google.com"
           (Tests.sysOf Cases.filesDns "myhostname")).
  right. left. discriminate.
Defined.

(** X5: on darwin and ios every call on the configuration built returns the
    fallback: NativeOnly unless the Go resolver is selected. *)
Theorem darwin_always_fallback (b : bootInputs) (r : option Resolver)
    (hostname : string) (sys : system) :
  runtime_GOOS b = "darwin" \/ runtime_GOOS b = "ios" ->
  Conf.hostLookupOrder (initConfVal b) r hostname sys
  = Returns (fallbackTable (build_netGo b || String.eqb (debug_dnsMode b) "go"
                            || preferGo r)
               (runtime_GOOS b)).
Proof.
  intros Hos. unfold Conf.hostLookupOrder.
  rewrite rules_answersEarly.
  - now rewrite fallbackOrder_table, initConfVal_netGo, initConfVal_goos.
  - rewrite initConfVal_answersEarly. unfold earlyCause.
    destruct Hos as [-> | ->]; reflexivity.
Qed.

Lemma darwin_always_fallback_witness :
  Conf.hostLookupOrder (initConfVal Cases.darwinBoot) None "google.com"
    (Tests.sysOf Cases.filesDns "myhostname")
  = Returns hostLookupCgo.
Proof.
  apply (darwin_always_fallback Cases.darwinBoot None "google.com"
           (Tests.sysOf Cases.filesDns "myhostname")).
  left. reflexivity.
Defined.

(** X6: when reading resolv.conf fails with an error which is neither
    not-exist nor permission, every call on the configuration built returns
    the fallback. *)
Theorem unreadable_resolv_conf_forces_fallback (b : bootInputs) (r : option Resolver)
    (hostname : string) (sys : system) :
  unreadable (read_resolv_conf b) = true ->
  Conf.hostLookupOrder (initConfVal b) r hostname sys
  = Returns (Conf.fallbackOrder (initConfVal b) r).
Proof.
  intros Hbad. unfold Conf.hostLookupOrder. apply rules_answersEarly.
  rewrite initConfVal_answersEarly. unfold earlyCause. rewrite Hbad.
  now rewrite orb_true_r.
Qed.

Lemma unreadable_resolv_conf_witness :
  Conf.hostLookupOrder (initConfVal Cases.brokenResolvBoot) None "google.com"
    (Tests.sysOf Cases.filesDns "myhostname")
  = Returns hostLookupCgo.
Proof.
  apply (unreadable_resolv_conf_forces_fallback Cases.brokenResolvBoot None "google.com"
           (Tests.sysOf Cases.filesDns "myhostname")).
  reflexivity.
Defined.

(** X7: [initConfVal] reads resolv.conf only when nothing before decided:
    a configuration with a [resolv] has the one which was read, has [netCgo]
    unset, and was built with RES_OPTIONS and HOSTALIASES empty and
    LOCALDOMAIN undefined, on a platform other than darwin, ios, windows and
    plan9. *)
Theorem resolv_read_last (b : bootInputs) (rc : dnsConfig) :
  resolv (initConfVal b) = Some rc ->
  rc = read_resolv_conf b
  /\ netCgo (initConfVal b) = false
  /\ env_RES_OPTIONS b = "" /\ env_HOSTALIASES b = ""
  /\ env_LOCALDOMAIN_defined b = false
  /\ String.eqb (runtime_GOOS b) "darwin" || String.eqb (runtime_GOOS b) "ios"
     || String.eqb (runtime_GOOS b) "windows" || String.eqb (runtime_GOOS b) "plan9"
     = false.
Proof.
  init_branches b; simpl; try discriminate.
  intros [= <-]. bool_hyps.
  repeat match goal with
  | H : String.eqb _ "" = true |- _ => apply String.eqb_eq in H
  end.
  bool_rewrite.
  repeat split; try assumption; reflexivity.
Qed.

Lemma resolv_read_last_witness :
  netCgo (initConfVal Cases.linuxBoot) = false.
Proof.
  apply (resolv_read_last Cases.linuxBoot
           {| lookup := []; unknownOpt := false; err := None |}).
  reflexivity.
Defined.

(** X8: the mDNS allow-list is looked for last: a configuration has
    [hasMDNSAllow] exactly when resolv.conf was read and the file was
    found. *)
Theorem hasMDNSAllow_iff (b : bootInputs) :
  hasMDNSAllow (initConfVal b) = true
  <-> resolv (initConfVal b) = Some (read_resolv_conf b) /\ stat_mdns_allow b = None.
Proof.
  init_branches b; simpl; split; try discriminate; try solve [intros [[=] _]].
  - destruct (stat_mdns_allow b); [discriminate | now split].
  - intros [_ ->]. reflexivity.
Qed.

(** ** [canUseCgo] *)

(** X9: on a configuration whose calls are answered by the platform check or
    by the forced-native check, [canUseCgo] is the negation of [netGo],
    whatever the system. *)
Theorem canUseCgo_answered_early (c : conf) (sys : system) :
  answersEarly c = true ->
  canUseCgo c sys = Returns (negb (netGo c)).
Proof.
  intros Hearly. unfold canUseCgo, Conf.hostLookupOrder.
  rewrite rules_answersEarly by assumption.
  rewrite fallbackOrder_builtin. simpl. now rewrite orb_false_r.
Qed.

Lemma canUseCgo_answered_early_witness :
  canUseCgo (initConfVal Cases.darwinBoot) (Tests.sysOf Cases.filesDns "myhostname")
  = Returns true.
Proof.
  apply (canUseCgo_answered_early (initConfVal Cases.darwinBoot)
           (Tests.sysOf Cases.filesDns "myhostname")).
  reflexivity.
Defined.

(** X10: with [netGo] set, [canUseCgo] is never true. *)
Theorem canUseCgo_netGo (c : conf) (sys : system) :
  netGo c = true ->
  canUseCgo c sys <> Returns true.
Proof.
  intros Hgo. unfold canUseCgo.
  destruct (Conf.hostLookupOrder c None "" sys) as [o |] eqn:Hcall; [| discriminate].
  intros [= Ho]. destruct o; try discriminate.
  apply (selected_go_not_cgo c None "" sys); [| exact Hcall].
  now rewrite Hgo.
Qed.

Lemma canUseCgo_netGo_witness :
  canUseCgo (initConfVal Cases.netdnsGoBoot) (Tests.sysOf Tests.nssUnreadable "myhostname")
  <> Returns true.
Proof.
  apply (canUseCgo_netGo (initConfVal Cases.netdnsGoBoot)
           (Tests.sysOf Tests.nssUnreadable "myhostname")).
  reflexivity.
Defined.

(** ** What a call does not look at *)

(** X11: the NSS configuration and the machine host name are looked at only
    when step 7 is reached: every other call returns the same on any two
    systems.  So it is on windows, plan9, android and openbsd, under forced
    native resolution, and for names with a backslash, a percent sign or the
    .local ending. *)
Theorem system_read_from_step7 (c : conf) (r : option Resolver) (hostname : string)
    (sys sys' : system) :
  reachesStep7 c hostname = false ->
  Conf.hostLookupOrder c r hostname sys = Conf.hostLookupOrder c r hostname sys'.
Proof.
  unfold reachesStep7, reachesStep6, reachesStep5, Conf.hostLookupOrder, Conf.rules.
  intros Hreach.
  destruct (String.eqb (goos c) "windows"); [reflexivity |].
  destruct (String.eqb (goos c) "plan9"); [reflexivity |].
  destruct (forceCgoLookupHost c); [reflexivity |].
  destruct (resolv c) as [rc |]; [| reflexivity].
  destruct (unknownOpt rc); [reflexivity |].
  destruct (String.eqb (goos c) "android"); [reflexivity |].
  destruct (Str.IndexByteString hostname "\" =? -1); [| reflexivity].
  destruct (Str.IndexByteString hostname "%" =? -1); [| reflexivity].
  destruct (String.eqb (goos c) "openbsd"); [reflexivity |].
  simpl in Hreach. simpl. apply negb_false_iff in Hreach. now rewrite Hreach.
Qed.

Lemma system_read_from_step7_witness :
  Conf.hostLookupOrder Tests.openbsdBindFile None "google.com"
    (Tests.sysOf Tests.somethingCustom "google.com")
  = Conf.hostLookupOrder Tests.openbsdBindFile None "google.com"
      (Tests.sysOf Tests.nssUnreadable "myhostname").
Proof.
  apply (system_read_from_step7 Tests.openbsdBindFile None "google.com"
           (Tests.sysOf Tests.somethingCustom "google.com")
           (Tests.sysOf Tests.nssUnreadable "myhostname")).
  reflexivity.
Defined.

Lemma scanSources_without_myhostname (fb : hostLookupOrder) (sys sys' : system)
    (hostname : string) (srcs : list nssSource) :
  present "myhostname" srcs = false ->
  forall v,
    Conf.scanSources fb sys hostname srcs v = Conf.scanSources fb sys' hostname srcs v.
Proof.
  induction srcs as [| src srcs IH]; intros Hno v; simpl; [reflexivity |].
  simpl in Hno. apply orb_false_iff in Hno. destruct Hno as [Hsrc Hrest].
  assert (Hstep : Conf.scanSource fb sys hostname v src
                  = Conf.scanSource fb sys' hostname v src)
    by (unfold Conf.scanSource; now rewrite named_eqb, Hsrc).
  rewrite Hstep. destruct (Conf.scanSource fb sys' hostname v src); [now apply IH | reflexivity].
Qed.

(** X12: the machine host name is looked at only for a myhostname source:
    with the same NSS configuration and no such source for hosts, a call
    returns the same whatever [getHostname] gives. *)
Theorem hostname_lookup_only_for_myhostname (c : conf) (r : option Resolver)
    (hostname : string) (sys sys' : system) :
  getSystemNSS sys = getSystemNSS sys' ->
  present "myhostname" (hostsSources (getSystemNSS sys)) = false ->
  Conf.hostLookupOrder c r hostname sys = Conf.hostLookupOrder c r hostname sys'.
Proof.
  intros Hnss Hno. unfold Conf.hostLookupOrder, Conf.rules, Conf.nssOrder.
  rewrite <- Hnss.
  now rewrite (scanSources_without_myhostname _ sys sys').
Qed.

Lemma hostname_lookup_only_for_myhostname_witness :
  Conf.hostLookupOrder Tests.plainConf None "myhostname"
    (Tests.sysOf Cases.filesDns "myhostname")
  = Conf.hostLookupOrder Tests.plainConf None "myhostname"
      {| getSystemNSS := Cases.filesDns;
         getHostname := ("", Some (ErrOther "hostname: not set")) |}.
Proof.
  apply (hostname_lookup_only_for_myhostname Tests.plainConf None "myhostname"
           (Tests.sysOf Cases.filesDns "myhostname")
           {| getSystemNSS := Cases.filesDns;
              getHostname := ("", Some (ErrOther "hostname: not set")) |});
    vm_compute; reflexivity.
Defined.

(** ** Step 9: the mDNS allow-list *)

Lemma scanSource_mdns (fb : hostLookupOrder) (sys : system) (hostname : string)
    (v v' : scanVars) (src : nssSource) :
  Conf.scanSource fb sys hostname v src = Continue v' ->
  mdnsSource v' = mdnsSource v || mdnsNamed src.
Proof.
  unfold Conf.scanSource, mdnsNamed.
  destruct (String.eqb_spec (source src) "myhostname") as [-> | _].
  - destruct (isLocalhost hostname || isGateway hostname || isOutbound hostname);
      [discriminate |].
    destruct (getHostname sys) as [hn e].
    destruct (notNil e || Str.stringsEqualFold hostname hn); [discriminate |].
    intros [= <-]. now rewrite orb_false_r.
  - destruct (String.eqb_spec (source src) "files") as [-> | _].
    + change (Str.stringsHasPrefix "files" "mdns") with false.
      simpl. destruct (standardCriteria src); [| discriminate]. simpl.
      intros [= <-]. rewrite orb_false_r.
      now destruct (String.eqb (first v) "").
    + destruct (String.eqb_spec (source src) "dns") as [-> | _].
      * change (Str.stringsHasPrefix "dns" "mdns") with false.
        simpl. destruct (standardCriteria src); [| discriminate]. simpl.
        intros [= <-]. rewrite orb_false_r.
        now destruct (String.eqb (first v) "").
      * simpl. destruct (Str.stringsHasPrefix (source src) "mdns"); [| discriminate].
        intros [= <-]. simpl. now rewrite orb_true_r.
Qed.

Lemma scanSources_mdns (fb : hostLookupOrder) (sys : system) (hostname : string)
    (srcs : list nssSource) :
  forall v v',
    Conf.scanSources fb sys hostname srcs v = Continue v' ->
    mdnsSource v' = mdnsSource v || existsb mdnsNamed srcs.
Proof.
  induction srcs as [| src srcs IH]; intros v v'; simpl.
  - intros [= <-]. now rewrite orb_false_r.
  - destruct (Conf.scanSource fb sys hostname v src) as [v1 | o] eqn:Hsrc;
      [| discriminate].
    intros Hrest. apply scanSource_mdns in Hsrc. apply IH in Hrest.
    now rewrite Hrest, Hsrc, orb_assoc.
Qed.

(** X13: when the scan is reached, a source whose name starts with mdns is
    listed for hosts and the machine has an mdns.allow file, the call
    returns the fallback, whatever else is listed. *)
Theorem mdns_allow_returns_fallback (c : conf) (r : option Resolver)
    (hostname : string) (sys : system) :
  reachesStep8 c hostname sys = true ->
  existsb mdnsNamed (hostsSources (getSystemNSS sys)) = true ->
  hasMDNSAllow c = true ->
  Conf.hostLookupOrder c r hostname sys = Returns (Conf.fallbackOrder c r).
Proof.
  intros Hreach Hmdns Hallow. unfold Conf.hostLookupOrder.
  rewrite rules_step8 by assumption. f_equal.
  destruct (scanSources_punts sys (Conf.canonical hostname)
              (hostsSources (getSystemNSS sys)) scanInit) as [Hret | [v Hcont]].
  - now rewrite Hret.
  - rewrite Hcont.
    pose proof (scanSources_mdns _ _ _ _ _ _ (Hcont (Conf.fallbackOrder c r))) as Hv.
    rewrite Hmdns in Hv. simpl in Hv.
    unfold Conf.classify. now rewrite Hv, Hallow.
Qed.

Lemma mdns_allow_witness :
  Conf.hostLookupOrder (Tests.withMDNSAllow Tests.plainConf) None "x.com"
    (Tests.sysOf Cases.filesMdnsDns "myhostname")
  = Returns hostLookupCgo.
Proof.
  apply (mdns_allow_returns_fallback (Tests.withMDNSAllow Tests.plainConf) None "x.com"
           (Tests.sysOf Cases.filesMdnsDns "myhostname"));
    vm_compute; reflexivity.
Defined.

(** ** The trailing dot *)

Lemma index_lower_bound (s : string) (c : ascii) : -1 <= Str.IndexByteString s c.
Proof.
  induction s as [| b s IH]; simpl; [lia |].
  destruct (Ascii.eqb b c); [lia |].
  destruct (Str.IndexByteString s c =? -1); lia.
Qed.

(** A byte added at the end does not bring in another one. *)
Lemma index_append_other (s : string) (c d : ascii) :
  Ascii.eqb d c = false ->
  (Str.IndexByteString (String.append s (String d EmptyString)) c =? -1)
  = (Str.IndexByteString s c =? -1).
Proof.
  intros Hd. induction s as [| b s IH].
  - simpl. now rewrite Hd.
  - change (String.append (String b s) (String d EmptyString))
      with (String b (String.append s (String d EmptyString))).
    simpl. destruct (Ascii.eqb b c); [reflexivity |].
    rewrite IH. destruct (Str.IndexByteString s c =? -1) eqn:Hs; [reflexivity |].
    pose proof (index_lower_bound s c) as Hlo.
    pose proof (index_lower_bound (String.append s (String d EmptyString)) c) as Hlo'.
    apply Z.eqb_neq in Hs. apply Z.eqb_neq in IH.
    transitivity false; [| symmetry]; apply Z.eqb_neq; lia.
Qed.

(** X14: a host name written with one dot more at its end is routed as the
    name without it, on every configuration and system. *)
Theorem trailing_dot_ignored (c : conf) (r : option Resolver) (hostname : string)
    (sys : system) :
  Str.stringsHasSuffix hostname "." = false ->
  Conf.hostLookupOrder c r (String.append hostname ".") sys
  = Conf.hostLookupOrder c r hostname sys.
Proof.
  intros Hdot. unfold Conf.hostLookupOrder, Conf.rules. cbv zeta.
  rewrite !index_append_other by reflexivity.
  rewrite canonical_trailing_dot, (canonical_no_trailing_dot hostname Hdot).
  reflexivity.
Qed.

Lemma trailing_dot_ignored_witness :
  Conf.hostLookupOrder Tests.plainConf None "localhost."
    (Tests.sysOf Tests.filesDnsMyhostname "myhostname")
  = Conf.hostLookupOrder Tests.plainConf None "localhost"
      (Tests.sysOf Tests.filesDnsMyhostname "myhostname").
Proof.
  apply (trailing_dot_ignored Tests.plainConf None "localhost"
           (Tests.sysOf Tests.filesDnsMyhostname "myhostname")).
  reflexivity.
Defined.

(** ** Letter case *)

Lemma lowerASCII_idem (b : ascii) : Str.lowerASCII (Str.lowerASCII b) = Str.lowerASCII b.
Proof. destruct b as [[] [] [] [] [] [] [] []]; reflexivity. Qed.

Lemma lowerASCII_backslash (b : ascii) :
  Ascii.eqb (Str.lowerASCII b) "\" = Ascii.eqb b "\".
Proof. destruct b as [[] [] [] [] [] [] [] []]; reflexivity. Qed.

Lemma lowerASCII_percent (b : ascii) :
  Ascii.eqb (Str.lowerASCII b) "%" = Ascii.eqb b "%".
Proof. destruct b as [[] [] [] [] [] [] [] []]; reflexivity. Qed.

Lemma lowerASCII_dot (b : ascii) :
  Ascii.eqb (Str.lowerASCII b) "." = Ascii.eqb b ".".
Proof. destruct b as [[] [] [] [] [] [] [] []]; reflexivity. Qed.

Lemma lower_length (s : string) : String.length (lowerString s) = String.length s.
Proof. induction s as [| a s IH]; simpl; [reflexivity | now rewrite IH]. Qed.

Lemma lower_idem (s : string) : lowerString (lowerString s) = lowerString s.
Proof.
  induction s as [| a s IH]; simpl; [reflexivity |].
  now rewrite lowerASCII_idem, IH.
Qed.

Lemma lower_substring (s : string) :
  forall n m, lowerString (String.substring n m s) = String.substring n m (lowerString s).
Proof.
  induction s as [| a s IH]; intros [| n] [| m]; simpl; try reflexivity;
    now rewrite IH.
Qed.

Lemma equalFoldBytes_lower (s : string) :
  forall t, Str.equalFoldBytes s t = String.eqb (lowerString s) (lowerString t).
Proof.
  induction s as [| a s IH]; intros [| b t]; simpl; try reflexivity.
  rewrite IH. now destruct (Ascii.eqb (Str.lowerASCII a) (Str.lowerASCII b)).
Qed.

(** Two names are equal under folding exactly when their lower-case forms
    are the same. *)
Lemma stringsEqualFold_lower (s t : string) :
  Str.stringsEqualFold s t = String.eqb (lowerString s) (lowerString t).
Proof.
  unfold Str.stringsEqualFold, Str.len.
  destruct (Z.of_nat (String.length s) =? Z.of_nat (String.length t)) eqn:Hlen; simpl.
  - apply equalFoldBytes_lower.
  - symmetry. apply String.eqb_neq. intros Heq.
    apply (f_equal String.length) in Heq. rewrite !lower_length in Heq.
    apply Z.eqb_neq in Hlen. lia.
Qed.

Section LowerCase.

Variable h : string.

Lemma equalFold_lower (x : string) :
  Str.stringsEqualFold (lowerString h) x = Str.stringsEqualFold h x.
Proof. now rewrite !stringsEqualFold_lower, lower_idem. Qed.

Lemma hasSuffixFold_lower (x : string) :
  Str.stringsHasSuffixFold (lowerString h) x = Str.stringsHasSuffixFold h x.
Proof.
  unfold Str.stringsHasSuffixFold, Str.from, Str.len.
  rewrite lower_length, <- lower_substring.
  now rewrite !stringsEqualFold_lower, lower_idem.
Qed.

Lemma eqb_dot_lower (x : string) : String.eqb (lowerString x) "." = String.eqb x ".".
Proof.
  destruct x as [| a [| b x]]; simpl; try reflexivity.
  - now rewrite lowerASCII_dot.
  - now rewrite lowerASCII_dot.
Qed.

Lemma hasSuffix_dot_lower :
  Str.stringsHasSuffix (lowerString h) "." = Str.stringsHasSuffix h ".".
Proof.
  unfold Str.stringsHasSuffix, Str.from, Str.len.
  now rewrite lower_length, <- lower_substring, eqb_dot_lower.
Qed.

Lemma canonical_lower : Conf.canonical (lowerString h) = lowerString (Conf.canonical h).
Proof.
  unfold Conf.canonical. rewrite hasSuffix_dot_lower.
  destruct (Str.stringsHasSuffix h "."); [| reflexivity].
  unfold Str.upto, Str.len. now rewrite lower_length, lower_substring.
Qed.

Lemma index_backslash_lower :
  Str.IndexByteString (lowerString h) "\" = Str.IndexByteString h "\".
Proof.
  induction h as [| a s IH]; simpl; [reflexivity |].
  now rewrite lowerASCII_backslash, IH.
Qed.

Lemma index_percent_lower :
  Str.IndexByteString (lowerString h) "%" = Str.IndexByteString h "%".
Proof.
  induction h as [| a s IH]; simpl; [reflexivity |].
  now rewrite lowerASCII_percent, IH.
Qed.

Lemma isLocalhost_lower : isLocalhost (lowerString h) = isLocalhost h.
Proof. unfold isLocalhost. now rewrite !equalFold_lower, !hasSuffixFold_lower. Qed.

Lemma isGateway_lower : isGateway (lowerString h) = isGateway h.
Proof. apply equalFold_lower. Qed.

Lemma isOutbound_lower : isOutbound (lowerString h) = isOutbound h.
Proof. apply equalFold_lower. Qed.

End LowerCase.

Lemma scanSource_lower (fb : hostLookupOrder) (sys : system) (h : string)
    (v : scanVars) (src : nssSource) :
  Conf.scanSource fb sys (lowerString h) v src = Conf.scanSource fb sys h v src.
Proof.
  unfold Conf.scanSource.
  rewrite isLocalhost_lower, isGateway_lower, isOutbound_lower.
  destruct (getHostname sys) as [hn e]. now rewrite equalFold_lower.
Qed.

Lemma scanSources_lower (fb : hostLookupOrder) (sys : system) (h : string)
    (srcs : list nssSource) :
  forall v,
    Conf.scanSources fb sys (lowerString h) srcs v = Conf.scanSources fb sys h srcs v.
Proof.
  induction srcs as [| src srcs IH]; intros v; simpl; [reflexivity |].
  rewrite scanSource_lower.
  destruct (Conf.scanSource fb sys h v src); [apply IH | reflexivity].
Qed.

Lemma rules_lower (fb : hostLookupOrder) (c : conf) (h : string) (sys : system) :
  Conf.rules fb c (lowerString h) sys = Conf.rules fb c h sys.
Proof.
  unfold Conf.rules, Conf.nssOrder. cbv zeta.
  rewrite index_backslash_lower, index_percent_lower, canonical_lower.
  now rewrite hasSuffixFold_lower, scanSources_lower.
Qed.

(** X15: the letter case of the host name does not matter: two names equal
    under ASCII case folding are routed alike, on every configuration and
    system. *)
Theorem hostname_case_ignored (c : conf) (r : option Resolver) (h h' : string)
    (sys : system) :
  Str.stringsEqualFold h h' = true ->
  Conf.hostLookupOrder c r h sys = Conf.hostLookupOrder c r h' sys.
Proof.
  rewrite stringsEqualFold_lower. intros Heq. apply String.eqb_eq in Heq.
  unfold Conf.hostLookupOrder.
  rewrite <- (rules_lower _ c h), <- (rules_lower _ c h'). now rewrite Heq.
Qed.

Lemma hostname_case_ignored_witness :
  Conf.hostLookupOrder Tests.plainConf None "Printer.LOCAL"
    (Tests.sysOf Cases.filesDns "myhostname")
  = Conf.hostLookupOrder Tests.plainConf None "printer.local"
      (Tests.sysOf Cases.filesDns "myhostname").
Proof.
  apply (hostname_case_ignored Tests.plainConf None "Printer.LOCAL" "printer.local"
           (Tests.sysOf Cases.filesDns "myhostname")).
  reflexivity.
Defined.

(** ** GODEBUG netdns *)

Lemma index_append_found (a b : string) (c : ascii) :
  Str.IndexByteString a c = -1 ->
  Str.IndexByteString (String.append a (String c b)) c = Str.len a.
Proof.
  unfold Str.len. induction a as [| x a IH]; intros Hnone.
  - simpl. now rewrite Ascii.eqb_refl.
  - change (String.append (String x a) (String c b))
      with (String x (String.append a (String c b))).
    simpl in Hnone. simpl Str.IndexByteString.
    destruct (Ascii.eqb x c); [discriminate |].
    pose proof (index_lower_bound a c) as Hlo.
    destruct (Str.IndexByteString a c =? -1) eqn:Ha; [| lia].
    apply Z.eqb_eq in Ha. rewrite (IH Ha).
    replace (Z.of_nat (String.length a) =? -1) with false
      by (symmetry; apply Z.eqb_neq; lia).
    simpl String.length. lia.
Qed.

Lemma substring_whole (s : string) : String.substring 0 (String.length s) s = s.
Proof. induction s as [| a s IH]; simpl; [reflexivity | now rewrite IH]. Qed.

Lemma from_after_separator (a b : string) (c : ascii) :
  Str.from (Str.len a + 1) (String.append a (String c b)) = b.
Proof.
  unfold Str.from, Str.len. rewrite length_append. simpl String.length.
  replace (Z.to_nat (Z.of_nat (String.length a) + 1)) with (S (String.length a)) by lia.
  replace (String.length a + S (String.length b) - S (String.length a))%nat
    with (String.length b) by lia.
  induction a as [| x a IH]; simpl; [apply substring_whole | exact IH].
Qed.

Lemma upto_separator (a b : string) :
  Str.upto (Str.len a) (String.append a b) = a.
Proof.
  unfold Str.upto, Str.len. rewrite Nat2Z.id. apply substring_append_head.
Qed.

(** The value is split at its first plus sign, and only there. *)
Lemma goDebugNetDNS_split (dtoi : string -> Z * Z * bool) (a rest : string) :
  Str.IndexByteString a "+" = -1 ->
  goDebugNetDNS dtoi (String.append a (String.append "+" rest))
  = parsePart dtoi rest (parsePart dtoi a ("", 0)).
Proof.
  intros Ha. unfold goDebugNetDNS.
  change (String.append "+" rest) with (String "+"%char rest).
  rewrite (index_append_found a rest "+" Ha).
  replace (Str.len a =? -1) with false
    by (symmetry; apply Z.eqb_neq; unfold Str.len; lia).
  simpl negb. cbv iota. now rewrite from_after_separator, upto_separator.
Qed.

Lemma parsePart_mode (dtoi : string -> Z * Z * bool) (mode : string)
    (results : string * Z) :
  startsWithDigit mode = false ->
  parsePart dtoi mode results = if String.eqb mode "" then results else (mode, snd results).
Proof.
  destruct mode as [| m0 mode]; simpl; [reflexivity |]. now intros ->.
Qed.

Lemma parsePart_level (dtoi : string -> Z * Z * bool) (level : string)
    (results : string * Z) :
  startsWithDigit level = true ->
  parsePart dtoi level results = (fst results, fst (fst (dtoi level))).
Proof.
  destruct level as [| l0 level]; simpl; [discriminate |]. intros ->.
  now destruct (dtoi (String l0 level)) as [[n i] ok].
Qed.

(** X16: a mode and a level joined by a plus sign parse alike in either
    order: the mode is the part which does not start with a digit, the
    level is what [dtoi] reads from the other part. *)
Theorem netdns_order_free (dtoi : string -> Z * Z * bool) (mode level : string) :
  Str.IndexByteString mode "+" = -1 ->
  Str.IndexByteString level "+" = -1 ->
  startsWithDigit mode = false ->
  startsWithDigit level = true ->
  goDebugNetDNS dtoi (String.append mode (String.append "+" level))
  = (mode, fst (fst (dtoi level)))
  /\ goDebugNetDNS dtoi (String.append level (String.append "+" mode))
     = (mode, fst (fst (dtoi level))).
Proof.
  intros Hm Hl Hmode Hlevel.
  rewrite !goDebugNetDNS_split by assumption.
  rewrite (parsePart_mode _ mode ("", 0) Hmode), (parsePart_level _ level ("", 0) Hlevel).
  rewrite (parsePart_level _ level _ Hlevel), (parsePart_mode _ mode _ Hmode).
  destruct (String.eqb_spec mode "") as [-> | _]; now split.
Qed.

Lemma netdns_order_free_witness :
  goDebugNetDNS Cases.decimal "cgo+2" = ("cgo", 2)
  /\ goDebugNetDNS Cases.decimal "2+cgo" = ("cgo", 2).
Proof.
  apply (netdns_order_free Cases.decimal "cgo" "2"); reflexivity.
Defined.

(** X17: only the first plus sign splits the value, and the later part
    wins: of two modes the result is the second with level zero, further
    plus signs included; of two levels it is the second. *)
Theorem netdns_later_part_wins (dtoi : string -> Z * Z * bool) (a b : string) :
  Str.IndexByteString a "+" = -1 ->
  (startsWithDigit a = false -> startsWithDigit b = false -> b <> "" ->
   goDebugNetDNS dtoi (String.append a (String.append "+" b)) = (b, 0))
  /\ (startsWithDigit a = true -> startsWithDigit b = true ->
      goDebugNetDNS dtoi (String.append a (String.append "+" b))
      = ("", fst (fst (dtoi b)))).
Proof.
  intros Ha. rewrite goDebugNetDNS_split by assumption. split.
  - intros Hma Hmb Hb. rewrite (parsePart_mode _ b _ Hmb).
    apply String.eqb_neq in Hb. rewrite Hb. f_equal.
    rewrite (parsePart_mode _ a _ Hma). now destruct (String.eqb a "").
  - intros Hla Hlb. rewrite (parsePart_level _ b _ Hlb).
    now rewrite (parsePart_level _ a _ Hla).
Qed.

Lemma netdns_later_part_wins_witness :
  goDebugNetDNS Cases.decimal "go+cgo+1" = ("cgo+1", 0).
Proof.
  apply (netdns_later_part_wins Cases.decimal "go" "cgo+1"); try reflexivity.
  discriminate.
Defined.

(** ** More on errors.Join *)

Section JoinMore.

Context {E : Type} `{Errors.Error E}.

Lemma Join_nonNil (args : list (option E)) :
  Errors.Join args
  = match nonNil args with
    | [] => None
    | _ :: _ => Some {| Errors.errs := nonNil args |}
    end.
Proof.
  unfold Errors.Join. rewrite countNonNil_length, appendNonNil_nonNil. simpl.
  destruct (nonNil args) as [| e es]; [reflexivity |].
  replace (Z.of_nat (length (e :: es)) =? 0) with false
    by (symmetry; apply Z.eqb_neq; simpl length; lia).
  reflexivity.
Qed.

Lemma unwrapped_Join (args : list (option E)) :
  unwrapped (Errors.Join args) = nonNil args.
Proof. rewrite Join_nonNil. now destruct (nonNil args). Qed.

Lemma textOf_Join (args : list (option E)) :
  textOf (Errors.Join args)
  = String.concat Errors.newline (map Errors.error_string (nonNil args)).
Proof.
  rewrite Join_nonNil. destruct (nonNil args) as [| e es] eqn:Hargs; [reflexivity |].
  unfold textOf. now rewrite joinError_Error_concat.
Qed.

Lemma nonNil_app (a b : list (option E)) :
  nonNil (a ++ b) = (nonNil a ++ nonNil b)%list.
Proof.
  induction a as [| [e |] a IH]; simpl; [reflexivity | now rewrite IH | exact IH].
Qed.

Lemma nonNil_length (args : list (option E)) :
  (length (nonNil args) <= length args)%nat.
Proof. induction args as [| [e |] args IH]; simpl; lia. Qed.

Lemma concat_length (es : list E) :
  String.length (String.concat Errors.newline (map Errors.error_string es))
  = (textBytes es + (length es - 1))%nat.
Proof.
  induction es as [| e es IH]; [reflexivity |].
  destruct es as [| e' es].
  - simpl. lia.
  - change (String.length
              (String.append (Errors.error_string e)
                 (String.append Errors.newline
                    (String.concat Errors.newline
                       (map Errors.error_string (e' :: es)))))
            = (textBytes (e :: e' :: es) + (length (e :: e' :: es) - 1))%nat).
    rewrite !length_append, IH.
    change (String.length Errors.newline) with 1%nat.
    simpl textBytes. simpl length. lia.
Qed.

End JoinMore.

(** X18: [Join] counts what it stores: the number of non-nil arguments
    counted by its first loop is the number of errors wrapped, a joined
    error never wraps an empty list nor more errors than there were
    arguments, and the nil result comes with the count zero. *)
Theorem join_counts_what_it_wraps {E : Type} `{Errors.Error E}
    (args : list (option E)) :
  match Errors.Join args with
  | Some e =>
      Errors.Unwrap e <> []
      /\ Errors.countNonNil args 0 = Z.of_nat (length (Errors.Unwrap e))
      /\ (length (Errors.Unwrap e) <= length args)%nat
  | None => Errors.countNonNil args 0 = 0
  end.
Proof.
  rewrite Join_nonNil, countNonNil_length.
  pose proof (nonNil_length args) as Hlen.
  destruct (nonNil args) as [| e es] eqn:Hargs; [reflexivity |].
  unfold Errors.Unwrap. simpl Errors.errs.
  split; [discriminate |]. split; [lia | exact Hlen].
Qed.

(** X19: joining two argument lists put one after the other wraps the errors
    which joining the first wraps, followed by those which joining the
    second wraps. *)
Theorem join_app_unwrapped {E : Type} `{Errors.Error E} (a b : list (option E)) :
  unwrapped (Errors.Join (a ++ b))
  = (unwrapped (Errors.Join a) ++ unwrapped (Errors.Join b))%list.
Proof. rewrite !unwrapped_Join. apply nonNil_app. Qed.

Section JoinNested.

Context {E : Type} `{Errors.Error E}.

Lemma concat_two (x y : string) (ys : list string) :
  String.concat Errors.newline (x :: y :: ys)
  = String.append x (String.append Errors.newline
                       (String.concat Errors.newline (y :: ys))).
Proof. reflexivity. Qed.

Lemma concat_app (xs ys : list string) :
  xs <> [] -> ys <> [] ->
  String.concat Errors.newline (xs ++ ys)
  = String.append (String.concat Errors.newline xs)
      (String.append Errors.newline (String.concat Errors.newline ys)).
Proof.
  intros Hxs Hys. induction xs as [| x xs IH]; [congruence |].
  destruct xs as [| x' xs].
  - destruct ys as [| y ys]; [congruence |]. reflexivity.
  - change ((x :: x' :: xs) ++ ys)%list with (x :: x' :: (xs ++ ys))%list.
    rewrite !concat_two.
    change (x' :: (xs ++ ys))%list with ((x' :: xs) ++ ys)%list.
    rewrite IH by discriminate. now rewrite !append_assoc.
Qed.

(** The joined errors which joining each group gives. *)
Lemma nonNil_map_Join (g : list (option E)) (gs : list (list (option E))) :
  nonNil (map Errors.Join (g :: gs))
  = match nonNil g with
    | [] => nonNil (map Errors.Join gs)
    | _ :: _ => {| Errors.errs := nonNil g |} :: nonNil (map Errors.Join gs)
    end.
Proof.
  simpl. rewrite Join_nonNil. now destruct (nonNil g).
Qed.

Lemma nonNil_map_Join_nil (gs : list (list (option E))) :
  nonNil (map Errors.Join gs) = [] <-> nonNil (List.concat gs) = [].
Proof.
  induction gs as [| g gs IH]; [now split |].
  rewrite nonNil_map_Join. simpl List.concat. rewrite nonNil_app.
  destruct (nonNil g) as [| e es]; [exact IH |].
  split; discriminate.
Qed.

Lemma nested_text (gs : list (list (option E))) :
  String.concat Errors.newline
    (map Errors.joinError_Error (nonNil (map Errors.Join gs)))
  = String.concat Errors.newline
      (map Errors.error_string (nonNil (List.concat gs))).
Proof.
  induction gs as [| g gs IH]; [reflexivity |].
  rewrite nonNil_map_Join. simpl List.concat. rewrite nonNil_app.
  destruct (nonNil g) as [| e es] eqn:Hg; [exact IH |].
  rewrite map_app.
  destruct (nonNil (List.concat gs)) as [| r rs] eqn:Hrest.
  - apply nonNil_map_Join_nil in Hrest. rewrite Hrest. simpl map at 1.
    rewrite app_nil_r. simpl String.concat at 1.
    apply joinError_Error_concat.
  - rewrite concat_app by discriminate.
    destruct (nonNil (map Errors.Join gs)) as [| j js] eqn:Hjs.
    + apply nonNil_map_Join_nil in Hjs. congruence.
    + change (map Errors.joinError_Error ({| Errors.errs := e :: es |} :: j :: js))
        with (Errors.joinError_Error {| Errors.errs := e :: es |}
              :: map Errors.joinError_Error (j :: js)).
      change (map Errors.joinError_Error (j :: js))
        with (Errors.joinError_Error j :: map Errors.joinError_Error js) at 1.
      rewrite concat_two.
      change (Errors.joinError_Error j :: map Errors.joinError_Error js)
        with (map Errors.joinError_Error (j :: js)).
      now rewrite IH, joinError_Error_concat.
Qed.

End JoinNested.

(** X21: joining errors which were themselves joined gives the text of
    joining all the arguments at once: the text does not show how the
    errors were grouped, nor the groups which came out nil. *)
Theorem join_nested_text {E : Type} `{Errors.Error E} (gs : list (list (option E))) :
  @textOf (Errors.joinError E) Errors.joinError_is_Error
    (Errors.Join (map Errors.Join gs))
  = textOf (Errors.Join (List.concat gs)).
Proof.
  rewrite !textOf_Join. apply nested_text.
Qed.

(** ** The host name on openbsd *)

(** X22: on openbsd the host name matters only through its backslash or
    percent sign: two names with neither are routed alike, a .local name or
    a localhost name as any other, on any two systems. *)
Theorem openbsd_ignores_hostname (c : conf) (r : option Resolver) (h h' : string)
    (sys sys' : system) :
  goos c = "openbsd" ->
  plainName h = true ->
  plainName h' = true ->
  Conf.hostLookupOrder c r h sys = Conf.hostLookupOrder c r h' sys'.
Proof.
  unfold plainName. intros Hos Hh Hh'. bool_hyps.
  unfold Conf.hostLookupOrder, Conf.rules. rewrite Hos. bool_rewrite.
  reflexivity.
Qed.

Lemma openbsd_ignores_hostname_witness :
  Conf.hostLookupOrder Tests.openbsdBindFile None "foo.local"
    (Tests.sysOf Tests.ubuntuTrusty "myhostname")
  = Conf.hostLookupOrder Tests.openbsdBindFile None "localhost"
      (Tests.sysOf Tests.filesDnsMyhostname "localhost").
Proof.
  apply (openbsd_ignores_hostname Tests.openbsdBindFile None "foo.local" "localhost"
           (Tests.sysOf Tests.ubuntuTrusty "myhostname")
           (Tests.sysOf Tests.filesDnsMyhostname "localhost")); reflexivity.
Defined.

(** ** The names of the myhostname source *)

Lemma eqb_same_length (s x : string) :
  String.eqb s x = true -> String.length s = String.length x.
Proof. intros Heq. apply String.eqb_eq in Heq. now rewrite Heq. Qed.

Lemma endsWith_length (x : string) :
  forall s, endsWith s x = true -> (String.length x <= String.length s)%nat.
Proof.
  induction s as [| a s IH]; cbn [endsWith]; intros Hends.
  - rewrite orb_false_r in Hends. apply eqb_same_length in Hends.
    simpl in Hends. lia.
  - apply orb_true_iff in Hends. destruct Hends as [Heq | Htail].
    + apply eqb_same_length in Heq. simpl String.length in *. lia.
    + apply IH in Htail. simpl String.length. lia.
Qed.

(** The bytes of [s] from where [x] would start are [x] exactly when some
    tail of [s] is [x]. *)
Lemma suffix_endsWith (x : string) :
  forall s,
    (String.length x <= String.length s)%nat ->
    String.eqb (String.substring (String.length s - String.length x) (String.length x) s) x
    = endsWith s x.
Proof.
  induction s as [| a s IH]; intros Hlen.
  - simpl in Hlen. destruct x as [| b x]; [reflexivity | simpl in Hlen; lia].
  - destruct (Nat.eq_dec (String.length x) (String.length (String a s))) as [Heq | Hne].
    + rewrite Heq, Nat.sub_diag, substring_whole.
      cbn [endsWith].
      destruct (endsWith s x) eqn:Htail; [| now rewrite orb_false_r].
      apply endsWith_length in Htail. simpl in Heq. lia.
    + simpl String.length in *.
      replace (S (String.length s) - String.length x)%nat
        with (S (String.length s - String.length x)) by lia.
      cbn [String.substring]. rewrite IH by lia. cbn [endsWith].
      destruct (String.eqb (String a s) x) eqn:Hwhole; [| reflexivity].
      apply eqb_same_length in Hwhole. simpl in Hwhole. lia.
Qed.

Lemma hasSuffix_endsWith (s x : string) : Str.stringsHasSuffix s x = endsWith s x.
Proof.
  unfold Str.stringsHasSuffix, Str.from, Str.len.
  destruct (Z.of_nat (String.length x) <=? Z.of_nat (String.length s)) eqn:Hle.
  - apply Z.leb_le in Hle.
    replace (Z.to_nat (Z.of_nat (String.length s) - Z.of_nat (String.length x)))
      with (String.length s - String.length x)%nat by lia.
    replace (String.length s - (String.length s - String.length x))%nat
      with (String.length x) by lia.
    simpl. apply suffix_endsWith. lia.
  - simpl. destruct (endsWith s x) eqn:Hends; [| reflexivity].
    apply endsWith_length in Hends. apply Z.leb_gt in Hle. lia.
Qed.

Lemma hasSuffixFold_endsWith (h x : string) :
  Str.stringsHasSuffixFold h x = endsWith (lowerString h) (lowerString x).
Proof.
  rewrite <- hasSuffix_endsWith.
  unfold Str.stringsHasSuffixFold, Str.stringsHasSuffix, Str.from, Str.len.
  now rewrite !lower_length, <- lower_substring, stringsEqualFold_lower.
Qed.

(** [isLocalhost] accepts the localhost forms and nothing else. *)
Lemma isLocalhost_localhostForm (h : string) : isLocalhost h = localhostForm h.
Proof.
  unfold isLocalhost, localhostForm, sameName, subdomainOf.
  now rewrite !stringsEqualFold_lower, !hasSuffixFold_endsWith.
Qed.

(** [isGateway] accepts _gateway, letter case apart, and nothing else. *)
Lemma isGateway_sameName (h : string) : isGateway h = sameName h "_gateway".
Proof. unfold isGateway, sameName. apply stringsEqualFold_lower. Qed.

(** [isOutbound] accepts _outbound, letter case apart, and nothing else. *)
Lemma isOutbound_sameName (h : string) : isOutbound h = sameName h "_outbound".
Proof. unfold isOutbound, sameName. apply stringsEqualFold_lower. Qed.

Lemma myhostnamePunts_fallback (h : string) (machine : string * error) :
  myhostnamePunts h machine = myhostnameFallback h machine.
Proof.
  unfold myhostnamePunts, myhostnameFallback.
  rewrite isLocalhost_localhostForm, isGateway_sameName, isOutbound_sameName.
  now rewrite stringsEqualFold_lower.
Qed.

(** ** Step 8: the myhostname source *)

(** C6: with a myhostname source among the hosts sources which are scanned,
    the result is the fallback when the host name is a localhost form
    (localhost, localhost.localdomain, or a name under either), is _gateway
    or _outbound, when the machine host name cannot be fetched, or when the
    host name is the machine host name, letter case apart each time; in
    every other case the result is the one of the same scan without the
    myhostname sources.  The host name is the canonical one of step 6. *)
Theorem myhostname_rule (c : conf) (r : option Resolver) (hostname : string)
    (sys : system) :
  reachesStep8 c hostname sys = true ->
  present "myhostname" (hostsSources (getSystemNSS sys)) = true ->
  (myhostnameFallback (Conf.canonical hostname) (getHostname sys) = true ->
   Conf.hostLookupOrder c r hostname sys = Returns (Conf.fallbackOrder c r))
  /\ (myhostnameFallback (Conf.canonical hostname) (getHostname sys) = false ->
      Conf.hostLookupOrder c r hostname sys
      = Returns
          (match Conf.scanSources (Conf.fallbackOrder c r) sys (Conf.canonical hostname)
                   (withoutMyhostname (hostsSources (getSystemNSS sys))) scanInit with
           | Return o => o
           | Continue v => Conf.classify (Conf.fallbackOrder c r) c v
           end)).
Proof.
  intros Hreach Hmy. unfold Conf.hostLookupOrder.
  rewrite rules_step8 by assumption.
  rewrite <- myhostnamePunts_fallback. split; intros Hp.
  - rewrite (scanSources_returning _ sys _ (named "myhostname")); [reflexivity | | exact Hmy].
    intros src v. now apply scanSource_myhostname_punts.
  - now rewrite scanSources_skip_myhostname.
Qed.

Lemma myhostname_rule_witness :
  Conf.hostLookupOrder Tests.plainConf None "Anything.Localhost.Localdomain"
    (Tests.sysOf Tests.filesDnsMyhostname "myhostname")
  = Returns hostLookupCgo
  /\ Conf.hostLookupOrder Tests.plainConf None "_Gateway"
       (Tests.sysOf Tests.filesDnsMyhostname "myhostname")
     = Returns hostLookupCgo
  /\ Conf.hostLookupOrder Tests.plainConf None "somehostname"
       (Tests.sysOf Tests.filesDnsMyhostname "myhostname")
     = Returns hostLookupFilesDNS.
Proof.
  split; [| split].
  - apply (myhostname_rule Tests.plainConf None "Anything.Localhost.Localdomain"
             (Tests.sysOf Tests.filesDnsMyhostname "myhostname"));
      vm_compute; reflexivity.
  - apply (myhostname_rule Tests.plainConf None "_Gateway"
             (Tests.sysOf Tests.filesDnsMyhostname "myhostname"));
      vm_compute; reflexivity.
  - refine (eq_trans
              (proj2 (myhostname_rule Tests.plainConf None "somehostname"
                        (Tests.sysOf Tests.filesDnsMyhostname "myhostname") _ _) _) _);
      vm_compute; reflexivity.
Defined.

(** ** Which rules punt *)

Lemma scanSource_returns_punting (fb : hostLookupOrder) (sys : system) (h : string)
    (v : scanVars) (src : nssSource) (o : hostLookupOrder) :
  Conf.scanSource fb sys h v src = Return o ->
  puntingSource h (getHostname sys) src = true.
Proof.
  unfold Conf.scanSource, puntingSource, nonStandard, unknownSource.
  rewrite <- myhostnamePunts_fallback. unfold myhostnamePunts.
  rewrite !named_eqb.
  destruct (getHostname sys) as [hn e]. simpl fst. simpl snd.
  destruct (named "myhostname" src).
  - destruct (isLocalhost h || isGateway h || isOutbound h); [reflexivity |].
    simpl. destruct (notNil e); [reflexivity |]. simpl.
    destruct (Str.stringsEqualFold h hn); [reflexivity | discriminate].
  - simpl. destruct (named "files" src); simpl.
    + destruct (standardCriteria src); [discriminate | reflexivity].
    + destruct (named "dns" src); simpl.
      * destruct (standardCriteria src); [discriminate | reflexivity].
      * destruct (Str.stringsHasPrefix (source src) "mdns");
          [discriminate | reflexivity].
Qed.

Lemma scanSource_punting_returns (fb : hostLookupOrder) (sys : system) (h : string)
    (src : nssSource) (v : scanVars) :
  puntingSource h (getHostname sys) src = true ->
  Conf.scanSource fb sys h v src = Return fb.
Proof.
  unfold puntingSource. rewrite <- myhostnamePunts_fallback. intros Hp.
  apply orb_true_iff in Hp. destruct Hp as [Hp | Hunknown];
    [| now apply scanSource_unknown].
  apply orb_true_iff in Hp. destruct Hp as [Hmy | Hnon];
    [| now apply scanSource_nonStandard].
  apply andb_true_iff in Hmy. destruct Hmy as [Hmy Hp].
  now apply scanSource_myhostname_punts.
Qed.

(** With no punting source the loop runs to its end, the same way whatever
    the fallback. *)
Lemma scanSources_complete (sys : system) (h : string) (srcs : list nssSource) :
  existsb (puntingSource h (getHostname sys)) srcs = false ->
  forall v, exists v', forall fb, Conf.scanSources fb sys h srcs v = Continue v'.
Proof.
  induction srcs as [| src srcs IH]; intros Hno v; simpl.
  - now exists v.
  - simpl in Hno. apply orb_false_iff in Hno. destruct Hno as [Hsrc Hrest].
    destruct (scanSource_punts sys h v src) as [Hret | [v1 Hcont]].
    + specialize (Hret hostLookupCgo). apply scanSource_returns_punting in Hret.
      congruence.
    + destruct (IH Hrest v1) as [v' Hv']. exists v'. intros fb.
      now rewrite Hcont.
Qed.

(** The listed lookup lists, through the table of step 5. *)
Lemma openbsdTable_listed (fb : hostLookupOrder) (rc : dnsConfig) :
  IsNotExist (err rc) = false ->
  (existsb (fun l => bool_decide (lookup rc = l)) listedLookups = false
   /\ openbsdTable fb rc = fb)
  \/ (existsb (fun l => bool_decide (lookup rc = l)) listedLookups = true
      /\ exists o, isCgo o = false /\ forall fb', openbsdTable fb' rc = o).
Proof.
  intros Herr. unfold openbsdTable, listedLookups. rewrite Herr. cbn [existsb].
  repeat (case_decide;
          [right;
           match goal with Hl : lookup rc = _ |- _ => rewrite Hl end;
           split; [reflexivity |];
           eexists; split; [| intros fb'; reflexivity]; reflexivity |]).
  left. split; [| reflexivity].
  repeat (rewrite bool_decide_eq_false_2 by assumption). reflexivity.
Qed.

(** A call punts exactly when a rule which punts applies, and returns a
    built-in order which does not depend on the fallback otherwise. *)
Lemma rules_characterised (c : conf) (hostname : string) (sys : system) :
  resolvReadable c = true ->
  (puntingRule c hostname sys = true
   /\ forall fb, Conf.rules fb c hostname sys = Returns fb)
  \/ (puntingRule c hostname sys = false
      /\ exists o, isCgo o = false
                   /\ forall fb, Conf.rules fb c hostname sys = Returns o).
Proof.
  unfold resolvReadable, puntingRule, punts10, punts9, punts8, punts7, punts6, punts5,
    punts4, punts3, punts2, reachesStep8, reachesStep7, reachesStep6, reachesStep5,
    plainName, Conf.rules.
  intros Hr.
  destruct (String.eqb (goos c) "windows"); [left; split; reflexivity |].
  destruct (String.eqb (goos c) "plan9"); [left; split; reflexivity |].
  destruct (forceCgoLookupHost c); [left; split; reflexivity |].
  destruct (resolv c) as [rc |]; [| discriminate].
  destruct (unknownOpt rc); [left; split; reflexivity |].
  destruct (String.eqb (goos c) "android"); [left; split; reflexivity |].
  destruct (Str.IndexByteString hostname "\" =? -1); [| left; split; reflexivity].
  destruct (Str.IndexByteString hostname "%" =? -1); [| left; split; reflexivity].
  destruct (String.eqb (goos c) "openbsd").
  - destruct (IsNotExist (err rc)) eqn:Herr; [right; split; [reflexivity | constant_order] |].
    destruct (Z.of_nat (length (lookup rc)) =? 0) eqn:Hlen.
    + apply length_zero_nil in Hlen. rewrite Hlen.
      right. split; [reflexivity | constant_order].
    + assert (Hne : lookup rc <> [])
        by (intros Hnil; apply length_zero_nil in Hnil; congruence).
      destruct (openbsdTable_listed hostLookupCgo rc Herr)
        as [[Hno _] | (Hyes & o & Ho & Htable)].
      * left. rewrite Hno. split; [reflexivity |]. intros fb.
        rewrite (openbsdLookup_table fb rc Herr Hne).
        destruct (openbsdTable_listed fb rc Herr) as [[_ ->] | [Hyes _]];
          [reflexivity | congruence].
      * right. rewrite Hyes. split; [reflexivity |]. exists o. split; [exact Ho |].
        intros fb. now rewrite (openbsdLookup_table fb rc Herr Hne), Htable.
  - cbv zeta.
    destruct (Str.stringsHasSuffixFold (Conf.canonical hostname) ".local");
      [left; split; reflexivity |].
    unfold Conf.nssOrder.
    destruct (nss_err (getSystemNSS sys)) as [[| | msg] |].
    + destruct (String.eqb (goos c) "solaris");
        [left; split; reflexivity |].
      right. split; [reflexivity |]. exists hostLookupFilesDNS.
      split; [reflexivity | intros fb; reflexivity].
    + left; split; reflexivity.
    + left; split; reflexivity.
    + destruct (Z.of_nat (length (hostsSources (getSystemNSS sys))) =? 0).
      * destruct (String.eqb (goos c) "solaris");
          [left; split; reflexivity |].
      right. split; [reflexivity |]. exists hostLookupFilesDNS.
      split; [reflexivity | intros fb; reflexivity].
      * cbn [notNil IsNotExist negb andb orb].
        destruct (existsb (puntingSource (Conf.canonical hostname) (getHostname sys))
                    (hostsSources (getSystemNSS sys))) eqn:Hp.
        { left. split; [reflexivity |]. intros fb.
          rewrite (scanSources_returning fb sys (Conf.canonical hostname)
                     (puntingSource (Conf.canonical hostname) (getHostname sys)));
            [reflexivity | | exact Hp].
          intros src v. apply scanSource_punting_returns. }
        destruct (scanSources_complete sys (Conf.canonical hostname) _ Hp scanInit)
          as [v Hv].
        pose proof (scanSources_vars _ _ _ _ _ _ (Hv hostLookupCgo)) as (Hf & Hd & Hfirst).
        pose proof (scanSources_mdns _ _ _ _ _ _ (Hv hostLookupCgo)) as Hm.
        simpl in Hf, Hd, Hm.
        assert (Hclass : forall fb,
                   Conf.scanSources fb sys (Conf.canonical hostname)
                     (hostsSources (getSystemNSS sys)) scanInit = Continue v)
          by exact Hv.
        destruct (existsb mdnsNamed (hostsSources (getSystemNSS sys))
                  && hasMDNSAllow c) eqn:Hallow.
        { left. split; [reflexivity |]. intros fb. rewrite Hclass.
          unfold Conf.classify. now rewrite Hm, Hallow. }
        destruct (present "files" (hostsSources (getSystemNSS sys))) eqn:Hpf;
          destruct (present "dns" (hostsSources (getSystemNSS sys))) eqn:Hpd.
        { right. split; [reflexivity |].
          exists (if String.eqb (first v) "files" then hostLookupFilesDNS
                  else hostLookupDNSFiles).
          split; [now destruct (String.eqb (first v) "files") |].
          intros fb. rewrite Hclass. unfold Conf.classify.
          now rewrite Hm, Hallow, Hf, Hd. }
        { right. split; [reflexivity |]. exists hostLookupFiles.
          split; [reflexivity |]. intros fb. rewrite Hclass. unfold Conf.classify.
          now rewrite Hm, Hallow, Hf, Hd. }
        { right. split; [reflexivity |]. exists hostLookupDNS.
          split; [reflexivity |]. intros fb. rewrite Hclass. unfold Conf.classify.
          now rewrite Hm, Hallow, Hf, Hd. }
        { left. split; [reflexivity |]. intros fb. rewrite Hclass.
          unfold Conf.classify. now rewrite Hm, Hallow, Hf, Hd. }
Qed.

Lemma puntingRule_resolvReadable (c : conf) (hostname : string) (sys : system) :
  puntingRule c hostname sys = true ->
  resolvReadable c = true.
Proof.
  unfold resolvReadable, puntingRule, punts10, punts9, punts8, punts7, punts6, punts5,
    punts4, punts3, punts2, reachesStep8, reachesStep7, reachesStep6, reachesStep5.
  destruct (String.eqb (goos c) "windows"); [reflexivity |].
  destruct (String.eqb (goos c) "plan9"); [reflexivity |].
  destruct (forceCgoLookupHost c); [reflexivity |].
  destruct (resolv c) as [rc |]; [reflexivity |].
  simpl. discriminate.
Qed.

(** ** Step 1: the fallback *)

(** C4: the fallback is BuiltinDNS on windows and FilesThenDNS elsewhere when
    the built-in resolver is selected by [netGo] or by [PreferGo], and
    NativeOnly otherwise.  Every rule which punts returns exactly this
    value: the platform check of step 2, the forced, unrecognized-directive
    and android checks of step 3, the backslash and percent check of step 4,
    an unlisted lookup list on openbsd, the .local ending, an absent or
    empty NSS file on solaris and an unreadable one everywhere, a punting
    source in the scan, the mDNS allow-list, and a scan which found neither
    files nor dns.  Where no such rule applies, the order returned is a
    built-in one which does not depend on the fallback. *)
Theorem fallback_of_step1 (c : conf) (r : option Resolver) (hostname : string)
    (sys : system) :
  Conf.fallbackOrder c r = fallbackTable (netGo c || preferGo r) (goos c)
  /\ (puntingRule c hostname sys = true ->
      Conf.hostLookupOrder c r hostname sys
      = Returns (fallbackTable (netGo c || preferGo r) (goos c)))
  /\ (resolvReadable c = true ->
      puntingRule c hostname sys = false ->
      exists o, isCgo o = false
                /\ forall fb, Conf.rules fb c hostname sys = Returns o).
Proof.
  split; [apply fallbackOrder_table |]. split.
  - intros Hpunt. unfold Conf.hostLookupOrder. rewrite <- fallbackOrder_table.
    destruct (rules_characterised c hostname sys
                (puntingRule_resolvReadable c hostname sys Hpunt))
      as [[_ Hfb] | [Hno _]]; [apply Hfb | congruence].
  - intros Hr Hno.
    destruct (rules_characterised c hostname sys Hr) as [[Hpunt _] | [_ Ho]];
      [congruence | exact Ho].
Qed.

Lemma fallback_of_step1_witness :
  Conf.hostLookupOrder netGoConf None "printer.local"
    (Tests.sysOf Cases.filesDns "myhostname")
  = Returns hostLookupFilesDNS
  /\ exists o, isCgo o = false
               /\ forall fb, Conf.rules fb netGoConf "x.com"
                               (Tests.sysOf Cases.filesDns "myhostname")
                             = Returns o.
Proof.
  split.
  - apply (fallback_of_step1 netGoConf None "printer.local"
             (Tests.sysOf Cases.filesDns "myhostname")).
    vm_compute. reflexivity.
  - apply (fallback_of_step1 netGoConf None "x.com"
             (Tests.sysOf Cases.filesDns "myhostname"));
      vm_compute; reflexivity.
Defined.

(** ** The text of a joined error *)

(** X20: the text of a joined error is the text of the first error wrapped,
    followed for each further error wrapped by one newline byte and its
    text: no newline comes before the first text or after the last.  Its
    length is so the sum of the lengths of the texts and the number of
    errors less one. *)
Theorem join_text_newlines {E : Type} `{Errors.Error E} (args : list (option E)) :
  match Errors.Join args with
  | Some e =>
      match Errors.Unwrap e with
      | [] => False
      | e0 :: rest =>
          Errors.joinError_Error e
          = String.append (Errors.error_string e0) (newlineEach rest)
      end
      /\ String.length (Errors.joinError_Error e)
         = (textBytes (Errors.Unwrap e) + (length (Errors.Unwrap e) - 1))%nat
  | None => True
  end.
Proof.
  rewrite Join_nonNil.
  destruct (nonNil args) as [| e0 rest]; [exact I |]. split.
  - unfold Errors.Unwrap, Errors.joinError_Error. simpl Errors.errs.
    simpl Errors.errorLoop. now rewrite errorLoop_newlineEach by lia.
  - rewrite joinError_Error_concat. apply concat_length.
Qed.
